(** * Verification of the qiskit-community-tutorials meetup notebooks

    The sources are two Jupyter notebooks stored in one file,
    [IBM_Q_status.ipynb]:

    - a status reporter that lists the operational IBM Q backends and
      prints one table row per backend;
    - a concept demonstrator with five cells: a unitarity check of the
      bit-flip matrix, a norm check, a two-gate circuit run on the
      statevector simulator, the [mixed_state] function, and Boltzmann
      weights on an energy grid.

    The cells compute with numpy arrays.  An array is modelled by the list
    of its rows, and the element type by a class [Dtype] with the
    instances the notebooks meet: [int64] (a 64-bit integer, wrap-around
    written out), [float64] (IEEE 754 binary64, the kernel's primitive
    floats, so that every rounding of the notebook is reproduced bit for
    bit) and [complex] over a real type.  The exact real and complex
    numbers ([R], [complex R]) are further instances of the same class.

    A statement about a value the notebook computes (a printed matrix, a
    norm, a trace) is proved on [int64] or [float64], the dtypes of the
    notebook; a statement about the mathematics of a formula (positive
    semidefiniteness, a limit) is proved on the exact instances, and says
    so. *)

From Stdlib Require Import String Ascii DecimalString.
From Stdlib Require Import Uint63 Floats.
From Stdlib Require Import Reals Lra.
From Stdlib Require Import ZArith Bool Lia List.
Import ListNotations.


(* ================================================================== *)
(** * Element types of numpy arrays *)
(* ================================================================== *)

(** The arithmetic a numpy dtype offers elementwise: [np.add],
    [np.subtract], [np.negative], [np.multiply] and [np.conjugate]. *)
Class Dtype (A : Type) := {
  zero : A;
  one : A;
  add : A -> A -> A;
  subtract : A -> A -> A;
  negative : A -> A;
  multiply : A -> A -> A;
  conjugate : A -> A
}.

(** The inexact dtypes (numpy's [np.inexact]: floating and complex) have
    true division; a Python [int] operand is converted by [of_int]. *)
Class Inexact (A : Type) {D : Dtype A} := {
  true_divide : A -> A -> A;
  of_int : Z -> A
}.

(** The real floating dtypes (numpy's [np.floating]) have [np.sqrt]. *)
Class Floating (A : Type) {D : Dtype A} {I : Inexact A} := {
  sqrt : A -> A
}.

(** ** int64 *)

Definition int64 := Z.

(** Two's-complement wrap-around of a 64-bit signed integer. *)
Definition wrap64 (z : Z) : int64 :=
  ((z + 2 ^ 63) mod 2 ^ 64 - 2 ^ 63)%Z.

#[export] Instance int64_dtype : Dtype int64 := {|
  zero := 0%Z;
  one := 1%Z;
  add := fun a b => wrap64 (a + b);
  subtract := fun a b => wrap64 (a - b);
  negative := fun a => wrap64 (- a);
  multiply := fun a b => wrap64 (a * b);
  conjugate := fun a => a
|}.

(** ** float64 *)

Definition float64 := PrimFloat.float.

(** A Python [int] as a float64 (correctly rounded), for the 64-bit
    range.  [of_uint63] converts the magnitudes below 2^63; the one int64
    of magnitude 2^63 is the power of two itself. *)
Definition float_of_int (z : Z) : float64 :=
  match z with
  | Z0 => PrimFloat.zero
  | Zpos _ => PrimFloat.of_uint63 (Uint63.of_Z z)
  | Zneg _ =>
      if (z =? - 2 ^ 63)%Z then PrimFloat.opp 0x1p63%float
      else PrimFloat.opp (PrimFloat.of_uint63 (Uint63.of_Z (- z)))
  end.

#[export] Instance float64_dtype : Dtype float64 := {|
  zero := PrimFloat.zero;
  one := PrimFloat.one;
  add := PrimFloat.add;
  subtract := PrimFloat.sub;
  negative := PrimFloat.opp;
  multiply := PrimFloat.mul;
  conjugate := fun a => a
|}.

#[export] Instance float64_inexact : Inexact float64 := {|
  true_divide := PrimFloat.div;
  of_int := float_of_int
|}.

#[export] Instance float64_floating : Floating float64 := {|
  sqrt := PrimFloat.sqrt
|}.

(** ** The exact real numbers *)

#[export] Instance R_dtype : Dtype R := {|
  zero := 0%R;
  one := 1%R;
  add := Rplus;
  subtract := Rminus;
  negative := Ropp;
  multiply := Rmult;
  conjugate := fun a => a
|}.

#[export] Instance R_inexact : Inexact R := {|
  true_divide := Rdiv;
  of_int := IZR
|}.

#[export] Instance R_floating : Floating R := {|
  sqrt := R_sqrt.sqrt
|}.

(** ** Complex numbers over a real type

    [complex float64] is numpy's complex128, [complex R] the field of
    complex numbers.  Multiplication is the textbook formula numpy uses:
    (a + bi)(c + di) = (ac - bd) + (ad + bc)i. *)

Definition complex (A : Type) : Type := (A * A)%type.

Section ComplexOps.
Context {A : Type} `{Inexact A}.

Definition real (z : complex A) : A := fst z.
Definition imag (z : complex A) : A := snd z.

(** A real scalar promoted to a complex one. *)
Definition of_real (a : A) : complex A := (a, zero).

Definition cadd (x y : complex A) : complex A :=
  (add (real x) (real y), add (imag x) (imag y)).
Definition csubtract (x y : complex A) : complex A :=
  (subtract (real x) (real y), subtract (imag x) (imag y)).
Definition cnegative (x : complex A) : complex A :=
  (negative (real x), negative (imag x)).
Definition cmultiply (x y : complex A) : complex A :=
  (subtract (multiply (real x) (real y)) (multiply (imag x) (imag y)),
   add (multiply (real x) (imag y)) (multiply (imag x) (real y))).
Definition cconjugate (x : complex A) : complex A :=
  (real x, negative (imag x)).

(** x / y = x * conj y / |y|^2 *)
Definition ctrue_divide (x y : complex A) : complex A :=
  let n := add (multiply (real y) (real y)) (multiply (imag y) (imag y)) in
  (true_divide
     (add (multiply (real x) (real y)) (multiply (imag x) (imag y))) n,
   true_divide
     (subtract (multiply (imag x) (real y)) (multiply (real x) (imag y))) n).
End ComplexOps.

#[export] Instance complex_dtype {A : Type} `{Inexact A} : Dtype (complex A) := {|
  zero := of_real zero;
  one := of_real one;
  add := cadd;
  subtract := csubtract;
  negative := cnegative;
  multiply := cmultiply;
  conjugate := cconjugate
|}.

#[export] Instance complex_inexact {A : Type} `{Inexact A} : Inexact (complex A) := {|
  true_divide := ctrue_divide;
  of_int := fun z => of_real (of_int z)
|}.

(* ================================================================== *)
(** * numpy arrays *)
(* ================================================================== *)

Module np.
(** A two-dimensional array is the list of its rows, as in the literal
    [np.array([[0, 1], [1, 0]])]. *)
Definition ndarray (A : Type) : Type := list (list A).

Section Arrays.
Context {A : Type} `{Dtype A}.

Definition nrows (a : ndarray A) : nat := length a.
Definition ncols (a : ndarray A) : nat := length (hd [] a).
Definition shape (a : ndarray A) : nat * nat := (nrows a, ncols a).

(** Every row has the length of the first one. *)
Definition rectangular (a : ndarray A) : bool :=
  forallb (fun r => Nat.eqb (length r) (ncols a)) a.

(** [a[i, j]] *)
Definition item (a : ndarray A) (i j : nat) : A := nth j (nth i a []) zero.

(** The array whose entry [(i, j)] is [f i j]. *)
Definition fromfunction (r c : nat) (f : nat -> nat -> A) : ndarray A :=
  map (fun i => map (fun j => f i j) (seq 0 c)) (seq 0 r).

(** [a.T] *)
Definition T (a : ndarray A) : ndarray A :=
  fromfunction (ncols a) (nrows a) (fun j i => item a i j).

(** [a.conj()] *)
Definition conj (a : ndarray A) : ndarray A := map (map conjugate) a.

(** The sum numpy's dot loop accumulates, from zero, left to right. *)
Definition sum (l : list A) : A := fold_left add l zero.

(** The inner product of a row with a column: each product, then the
sum.  This is what numpy computes on the integer dtypes, in exact
arithmetic, and on float64 when the row has one product (every outer
product of a column) or when the products and their partial sums are
exact.  On float64 rows of two or more inexact products numpy hands
the loop to BLAS, which may fuse a multiplication with the addition
and reorder the sum, so that the last bit can differ: a theorem below
that states a float64 value of [inner] on such a row does so only
where every order and fusing gives the same float. *)
Definition inner (u v : list A) : A :=
  sum (map (fun p => multiply (fst p) (snd p)) (combine u v)).

(** [a.dot(b)] for two-dimensional arrays; [None] stands for the
[ValueError] numpy raises when the shapes are not aligned. *)
Definition dot (a b : ndarray A) : option (ndarray A) :=
  if Nat.eqb (ncols a) (nrows b)
  then Some (map (fun r => map (fun c => inner r c) (T b)) a)
  else None.

(** [np.eye(n)] *)
Definition eye (n : nat) : ndarray A :=
  fromfunction n n (fun i j => if Nat.eqb i j then one else zero).

(** [s * a] for a scalar [s]: the scalar is broadcast. *)
Definition scalar_multiply (s : A) (a : ndarray A) : ndarray A :=
  map (map (multiply s)) a.

(** The length of a broadcast axis: equal lengths, or one of them 1. *)
Definition broadcast_axis (n m : nat) : option nat :=
  if Nat.eqb n m then Some n
  else if Nat.eqb n 1 then Some m
  else if Nat.eqb m 1 then Some n
  else None.

(** [a[i, j]] of [a] broadcast to a larger shape: an axis of length 1
is repeated. *)
Definition broadcast_item (a : ndarray A) (i j : nat) : A :=
  item a (if Nat.eqb (nrows a) 1 then 0 else i)
       (if Nat.eqb (ncols a) 1 then 0 else j).

(** [a + b] with numpy's broadcasting; [None] stands for the
[ValueError] raised when the shapes cannot be broadcast together. *)
Definition array_add (a b : ndarray A) : option (ndarray A) :=
  match broadcast_axis (nrows a) (nrows b),
      broadcast_axis (ncols a) (ncols b) with
  | Some r, Some c =>
    Some (fromfunction r c
            (fun i j => add (broadcast_item a i j) (broadcast_item b i j)))
  | _, _ => None
  end.

(** [a.ravel()] *)
Definition ravel (a : ndarray A) : list A := concat a.

(** The diagonal of a square array and its sum, [np.trace]. *)
Definition diagonal (a : ndarray A) : list A :=
  map (fun i => item a i i) (seq 0 (Nat.min (nrows a) (ncols a))).
Definition trace (a : ndarray A) : A := sum (diagonal a).
End Arrays.

Section InexactArrays.
Context {A : Type} `{Inexact A}.

(** [a / s] for a scalar [s]. *)
Definition divide_scalar (a : ndarray A) (s : A) : ndarray A :=
  map (map (fun x => true_divide x s)) a.

(** An integer array converted to the inexact dtype, as numpy does
before it divides an integer array by a float. *)
Definition astype (a : ndarray int64) : ndarray A :=
  map (map of_int) a.
End InexactArrays.

(** [a.astype(float)] of an integer array. *)
Definition astype_float (a : ndarray int64) : ndarray float64 :=
  astype a.

(** [np.linalg.norm(x)] with the default [ord]: the array is converted to
  float, flattened, and the square root of its dot product with itself
  is returned.  The dot product is [inner], with its limits: the value
  is numpy's when the squares and their sum are exact in float64. *)
Definition linalg_norm (x : ndarray int64) : float64 :=
  let x := ravel (astype_float x) in
  PrimFloat.sqrt (inner x x).
End np.

(* ================================================================== *)
(** * The status reporter *)
(* ================================================================== *)

(** ** The provider

    The IBM Q service is external.  A backend is modelled by what the
    notebook reads from it, a provider by the backends of the account in
    the order the service lists them.  The service keys its backends by
    name, so the names of an account are distinct, and the model is used
    under that hypothesis only; aliases of backend names and failures of
    the service (authentication, network) are outside the model. *)

Module IBMQ.
Record Backend : Type := {
  name : string;              (* backend.name(), also str(backend) *)
  n_qubits : Z;               (* backend.configuration().n_qubits *)
  pending_jobs : Z;           (* backend.status().pending_jobs *)
  operational : bool          (* backend.status().operational *)
}.

(** [str(backend)] is the backend's name. *)
Definition str (b : Backend) : string := name b.

Definition Provider : Type := list Backend.

(** [provider.backends(operational=True)]: the operational backends, in
    the order of the service. *)
Definition backends (provider : Provider) : list Backend :=
  filter operational provider.

(** [provider.backends(name)] *)
Definition backends_named (provider : Provider) (nm : string) : list Backend :=
  filter (fun b => String.eqb (name b) nm) provider.

(** [provider.get_backend(name)]: the one backend of that name; it
    raises when none or more than one matches. *)
Definition get_backend (provider : Provider) (nm : string)
  : string + Backend :=
  match backends_named provider nm with
  | [] => inl "No backend matches the criteria"%string
  | [b] => inr b
  | _ :: _ :: _ => inl "More than one backend matches the criteria"%string
  end.
End IBMQ.

(** ** Python's string formatting *)

(** [str(n)] of an [int]. *)
Definition str_int (n : Z) : string := NilZero.string_of_int (Z.to_int n).

(** [s.ljust(width)]: padded with spaces on the right, never truncated. *)
Definition ljust (s : string) (width : nat) : string :=
  (s ++ string_of_list_ascii (repeat " "%char (width - String.length s)))%string.

(** ["{0:20} {1:<10} {2:<10}".format(a, b, c)] for strings already
    converted: a string field is left-aligned by default, [<] left-aligns
    a number. *)
Definition format_row (a b c : string) : string :=
  (ljust a 20 ++ " " ++ ljust b 10 ++ " " ++ ljust c 10)%string.

(** ** Standard output and exceptions

    A cell runs in a monad that threads the lines printed so far and
    stops at the first exception. *)

Definition Cell (A : Type) : Type := list string -> (string + A) * list string.

Definition ret {A : Type} (a : A) : Cell A := fun out => (inr a, out).

Definition bind {A B : Type} (m : Cell A) (k : A -> Cell B) : Cell B :=
  fun out =>
    match m out with
    | (inr a, out') => k a out'
    | (inl e, out') => (inl e, out')
    end.

Definition raise {A : Type} (e : string) : Cell A := fun out => (inl e, out).

(** [print(line)] *)
Definition print (line : string) : Cell unit := fun out => (inr tt, out ++ [line]).

(** A call that returns or raises. *)
Definition call {A : Type} (r : string + A) : Cell A :=
  match r with
  | inr a => ret a
  | inl e => raise e
  end.

Declare Scope cell_scope.
Delimit Scope cell_scope with cell.
Notation "x <- m ;; k" := (bind m (fun x => k))
  (at level 61, m at next level, right associativity) : cell_scope.
Notation "m ;; k" := (bind m (fun _ => k))
  (at level 61, right associativity) : cell_scope.

(** [for n in range(lo, lo + count): body(n)] *)
Fixpoint for_range (lo count : nat) (body : nat -> Cell unit) : Cell unit :=
  match count with
  | O => ret tt
  | S count' => (body lo ;; for_range (S lo) count' body)%cell
  end.

(** [l[n]]; an index out of range raises. *)
Definition getitem {A : Type} (l : list A) (n : nat) : Cell A :=
  match nth_error l n with
  | Some a => ret a
  | None => raise "list index out of range"%string
  end.

(** ** The cell

    [[
available_backends = provider.backends(operational=True)

print("{0:20} {1:<10} {2:<10} ".format("Name","#Qubits","Pending jobs"))
print("{0:20} {1:<10} {2:<10} ".format("++++","+++++++","++++++++++++"))

for n in range(0, len(available_backends)):
    available_backend = provider.get_backend(str(available_backends[n]))
    print("{0:20} {1:<10} {2:<10}"
          .format(available_backend.name(),
                    available_backend.configuration().n_qubits,
                    available_backend.status().pending_jobs))
    ]] *)
Definition header_names : string :=
  (format_row "Name" "#Qubits" "Pending jobs" ++ " ")%string.
Definition header_rule : string :=
  (format_row "++++" "+++++++" "++++++++++++" ++ " ")%string.

(** The table row of a backend. *)
Definition row (b : IBMQ.Backend) : string :=
  format_row (IBMQ.name b) (str_int (IBMQ.n_qubits b))
             (str_int (IBMQ.pending_jobs b)).

Definition status_report (provider : IBMQ.Provider) : Cell unit :=
  (let available_backends := IBMQ.backends provider in
   print header_names ;;
   print header_rule ;;
   for_range 0 (length available_backends)
     (fun n =>
        b <- getitem available_backends n ;;
        available_backend <- call (IBMQ.get_backend provider (IBMQ.str b)) ;;
        print (row available_backend)))%cell.

(** The account the notebook was run on, as its recorded output shows it. *)
Definition recorded_provider : IBMQ.Provider :=
  [ {| IBMQ.name := "ibmq_qasm_simulator"; IBMQ.n_qubits := 32;
       IBMQ.pending_jobs := 0; IBMQ.operational := true |};
    {| IBMQ.name := "ibmqx2"; IBMQ.n_qubits := 5;
       IBMQ.pending_jobs := 81; IBMQ.operational := true |};
    {| IBMQ.name := "ibmq_16_melbourne"; IBMQ.n_qubits := 14;
       IBMQ.pending_jobs := 2; IBMQ.operational := true |};
    {| IBMQ.name := "ibmq_vigo"; IBMQ.n_qubits := 5;
       IBMQ.pending_jobs := 2; IBMQ.operational := true |};
    {| IBMQ.name := "ibmq_ourense"; IBMQ.n_qubits := 5;
       IBMQ.pending_jobs := 2; IBMQ.operational := true |} ]%Z.

(** The lines of the recorded output. *)
Definition recorded_output : list string :=
  [ "Name                 #Qubits    Pending jobs ";
    "++++                 +++++++    ++++++++++++ ";
    "ibmq_qasm_simulator  32         0         ";
    "ibmqx2               5          81        ";
    "ibmq_16_melbourne    14         2         ";
    "ibmq_vigo            5          2         ";
    "ibmq_ourense         5          2         " ]%string.

(* ================================================================== *)
(** * The concept demonstrator *)
(* ================================================================== *)

(** ** Cell 1: the unitarity check *)

(** [X = np.array([[0, 1], [1, 0]])] *)
Definition X : np.ndarray int64 := [[0; 1]; [1; 0]]%Z.

(** [X.dot(X.T.conj())] *)
Definition XXdagger : option (np.ndarray int64) := np.dot X (np.conj (np.T X)).

(** [X.T.conj().dot(X)] *)
Definition XdaggerX : option (np.ndarray int64) := np.dot (np.conj (np.T X)) X.

(** ** Cell 2: the norm check *)

(** [zero_ket = np.array([[1], [0]])] *)
Definition zero_ket : np.ndarray int64 := [[1]; [0]]%Z.

(** [np.linalg.norm(zero_ket)] *)
Definition norm_before : float64 := np.linalg_norm zero_ket.

(** [np.linalg.norm(X.dot(zero_ket))] *)
Definition norm_after : option float64 :=
  option_map np.linalg_norm (np.dot X zero_ket).

(** ** Cell 3: the two-gate circuit on the statevector simulator

    The simulator is Qiskit's; the notebook only builds the circuit and
    runs it.  It is modelled as the notebook describes it: the state
    starts in the basis state |0...0>, and each gate multiplies the
    amplitudes by the gate's matrix, the X gate having the matrix [X] of
    cell 1. *)

Module qiskit.
Inductive Instruction : Type :=
  | XGate (qubit : nat).                 (* circuit.x(q[qubit]) *)

(** [QuantumCircuit(q, c)]: the sizes of the two registers and the
    instructions appended so far. *)
Record QuantumCircuit : Type := {
  num_qubits : nat;
  num_clbits : nat;
  data : list Instruction
}.

Definition QuantumRegister (size : nat) : nat := size.
Definition ClassicalRegister (size : nat) : nat := size.

Definition new_circuit (q c : nat) : QuantumCircuit :=
  {| num_qubits := q; num_clbits := c; data := [] |}.

(** [circuit.x(q[i])] appends an X gate; [None] stands for the error
    raised when the register has no qubit [i]. *)
Definition x (i : nat) (circuit : QuantumCircuit) : option QuantumCircuit :=
  if Nat.ltb i (num_qubits circuit)
  then Some {| num_qubits := num_qubits circuit;
               num_clbits := num_clbits circuit;
               data := data circuit ++ [XGate i] |}
  else None.

Section Simulator.
Context {A : Type} `{Inexact A}.

(** The matrix of a gate, in the simulator's dtype. *)
Definition gate_matrix (g : Instruction) : np.ndarray A :=
  match g with
  | XGate _ => np.astype X
  end.

Definition target (g : Instruction) : nat :=
  match g with
  | XGate q => q
  end.

(** The basis state |0...0> of [n] qubits. *)
Definition initial_statevector (n : nat) : list A :=
  map (fun i => if Nat.eqb i 0 then one else zero) (seq 0 (2 ^ n)).

(** A one-qubit gate applied to qubit [q]: amplitude [i] becomes the
    inner product of the gate's row selected by bit [q] of [i] with
    the two amplitudes that differ from [i] in bit [q] only. *)
Definition apply_gate (gate : np.ndarray A) (q : nat) (state : list A)
  : list A :=
  map (fun i =>
         np.inner (nth (if Nat.testbit i q then 1 else 0) gate [])
                  [nth (Nat.clearbit i q) state zero;
                   nth (Nat.setbit i q) state zero])
      (seq 0 (length state)).

(** [execute(circuit, backend_statevector).result().get_statevector()] *)
Definition get_statevector (circuit : QuantumCircuit) : list A :=
  fold_left (fun state g => apply_gate (gate_matrix g) (target g) state)
            (data circuit)
            (initial_statevector (num_qubits circuit)).
End Simulator.
End qiskit.

(** [[
q = QuantumRegister(1)
c = ClassicalRegister(1)
circuit = QuantumCircuit(q, c)
circuit.x(q[0])
circuit.x(q[0])
    ]] *)
Definition circuit : option qiskit.QuantumCircuit :=
  let q := qiskit.QuantumRegister 1 in
  let c := qiskit.ClassicalRegister 1 in
  match qiskit.x 0 (qiskit.new_circuit q c) with
  | Some circuit => qiskit.x 0 circuit
  | None => None
  end.

(** [job.result().get_statevector(circuit)] in the dtype [A]. *)
Definition statevector {A : Type} `{Inexact A} : option (list A) :=
  option_map qiskit.get_statevector circuit.

(** Two states equal up to a global phase: one is the other multiplied by
    a complex number of modulus 1. *)
Definition equal_up_to_global_phase (u w : list (complex R)) : Prop :=
  exists c : complex R,
    multiply c (conjugate c) = one /\ u = map (multiply c) w.

(** ** Cell 4: mixing a pure state with the maximally mixed state *)

Section MixedState.
Context {A : Type} `{Inexact A}.

(** [[
def mixed_state(pure_state, visibility):
    density_matrix = pure_state.dot(pure_state.T.conj())
    maximally_mixed_state = np.eye(4)/2**2
    return visibility*density_matrix + (1-visibility)*maximally_mixed_state
    ]] *)
Definition mixed_state (pure_state : np.ndarray A) (visibility : A)
  : option (np.ndarray A) :=
  match np.dot pure_state (np.conj (np.T pure_state)) with
  | Some density_matrix =>
      let maximally_mixed_state :=
        np.divide_scalar (np.eye 4) (of_int (2 ^ 2)) in
      np.array_add
        (np.scalar_multiply visibility density_matrix)
        (np.scalar_multiply (subtract (of_int 1) visibility)
                            maximally_mixed_state)
  | None => None
  end.

(** The formula of the specification, entry by entry:
    v (psi psi^dagger) + (1 - v) I / 4. *)
Definition outer_product (psi : np.ndarray A) : np.ndarray A :=
  np.fromfunction (np.nrows psi) (np.nrows psi)
    (fun i j => multiply (np.item psi i 0) (conjugate (np.item psi j 0))).

Definition identity_matrix (n : nat) : np.ndarray A :=
  np.fromfunction n n (fun i j => if Nat.eqb i j then one else zero).

Definition mixed_state_spec (psi : np.ndarray A) (v : A) : np.ndarray A :=
  np.fromfunction 4 4
    (fun i j =>
       add (multiply v (np.item (outer_product psi) i j))
           (multiply (subtract (of_int 1) v)
                     (true_divide (np.item (identity_matrix 4) i j)
                                  (of_int 4)))).

(** A matrix equal to its own conjugate transpose. *)
Definition hermitian (m : np.ndarray A) : Prop := np.conj (np.T m) = m.
End MixedState.

Section EntangledState.
Context {A : Type} `{Floating A}.

(** [ϕ = np.array([[1],[0],[0],[1]])/np.sqrt(2)] *)
Definition phi : np.ndarray A :=
  np.divide_scalar (np.astype [[1]; [0]; [0]; [1]]%Z) (sqrt (of_int 2)).
End EntangledState.

(** The visibilities of the four printed calls, as the float64 values
    the Python literals 1.0, 0.8, 0.6 and 0.2 denote. *)
Definition v_1_0 : float64 := 1%float.
Definition v_0_8 : float64 := 0x1.999999999999ap-1%float.
Definition v_0_6 : float64 := 0x1.3333333333333p-1%float.
Definition v_0_2 : float64 := 0x1.999999999999ap-3%float.

(** [mixed_state(ϕ, 1.0)], [mixed_state(ϕ, 0.8)], ... as the cell calls
    them, on float64. *)
Definition printed_states : list (option (np.ndarray float64)) :=
  map (mixed_state phi) [v_1_0; v_0_8; v_0_6; v_0_2].

(** ** Cell 5: Boltzmann weights on an energy grid

    [np.exp] has no counterpart on the kernel's floats, so this cell is
    modelled in exact real arithmetic only.

    [[
temperatures = [.5, 5, 2000]
energies = np.linspace(0, 20, 100)
for i, T in enumerate(temperatures):
    probabilities = np.exp(-energies/T)
    Z = probabilities.sum()
    probabilities /= Z
    ]] *)

(** [np.linspace(start, stop, num)]: [num] points with the step
    (stop - start) / (num - 1), the last one set to [stop]. *)
Definition linspace (start stop : R) (num : nat) : list R :=
  let step := ((stop - start) / INR (num - 1))%R in
  map (fun i => if Nat.eqb i (num - 1) then stop
                else (INR i * step + start)%R)
      (seq 0 num).

Definition temperatures : list R := [1 / 2; 5; 2000]%R.

Definition energies : list R := linspace 0 20 100.

(** [np.exp(-energies/T)] *)
Definition weights (energies : list R) (T : R) : list R :=
  map (fun E => exp (- E / T)) energies.

(** The body of the loop: the weights divided by their sum. *)
Definition boltzmann (energies : list R) (T : R) : list R :=
  let probabilities := weights energies T in
  let Z := np.sum probabilities in
  map (fun p => (p / Z)%R) probabilities.

(** [a.max()] of a one-dimensional array (of a nonempty one: numpy
    raises on an empty array, the model then gives 0). *)
Definition amax (a : list R) : R := fold_left Rmax (tl a) (hd 0%R a).

(** The curves the loop passes to [ax.plot], one for each temperature. *)
Definition plotted : list (list R) := map (boltzmann energies) temperatures.

(** [probabilities] once the loop is over: a Python loop leaves its
    variables at the values of the last iteration. *)
Definition probabilities : list R := last plotted [].

(** [ax.set_ylim(0, 1.2*probabilities.max())], the call that follows the
    loop. *)
Definition ylim : R * R := (0%R, (1.2 * amax probabilities)%R).

(** float64 values compared as numbers: the same value (NaN matching NaN),
    or two zeros of either sign. *)
Definition is_zero (x : float64) : bool :=
  match Prim2SF x with S754_zero _ => true | _ => false end.

Definition feq (x y : float64) : Prop :=
  x = y \/ (is_zero x = true /\ is_zero y = true).

(** [np.isfinite]: neither an infinity nor NaN. *)
Definition isfinite (x : float64) : bool :=
  match Prim2SF x with
  | S754_zero _ | S754_finite _ _ _ => true
  | _ => false
  end.

(** [abs(x) <= 1.0], false for NaN. *)
Definition magnitude_at_most_one (x : float64) : bool :=
  PrimFloat.leb (PrimFloat.abs x) 1.

(** [(np.abs(a) <= 1.0).all()] *)
Definition entries_at_most_one (a : np.ndarray float64) : bool :=
  forallb (forallb magnitude_at_most_one) a.

(** In the specification of the float operations: a zero or a finite
    number. *)
Definition finite_or_zero (x : spec_float) : bool :=
  match x with
  | S754_zero _ | S754_finite _ _ _ => true
  | _ => false
  end.

(** A shifted mantissa between 0 and [B]. *)
Definition shr_bounded (B : Z) (r : shr_record) : Prop :=
  (0 <= shr_m r <= B)%Z.

(** Two float64 arrays of the same shape with entries equal as numbers. *)
Definition array_feq (a b : np.ndarray float64) : Prop :=
  Forall2 (Forall2 feq) a b.

(** [np.isfinite(a).all()] *)
Definition all_finite (a : np.ndarray float64) : bool :=
  forallb (forallb isfinite) a.

(** A column vector of four entries. *)
Definition column4 {A : Type} (psi : np.ndarray A) : Prop :=
  np.shape psi = (4, 1) /\ np.rectangular psi = true.

(** A unit vector: psi^dagger psi = 1. *)
Definition unit_vector {A : Type} `{Dtype A} (psi : np.ndarray A) : Prop :=
  np.dot (np.conj (np.T psi)) psi = Some [[one]].

(** x^dagger M x, the quadratic form of a matrix at a column vector. *)
Definition quadratic_form {A : Type} `{Dtype A} (m x : np.ndarray A)
  : option (np.ndarray A) :=
  match np.dot m x with
  | Some mx => np.dot (np.conj (np.T x)) mx
  | None => None
  end.

(** A column vector that fits the matrix [m]. *)
Definition column_for {A : Type} (m x : np.ndarray A) : Prop :=
  np.shape x = (np.nrows m, 1) /\ np.rectangular x = true.

(** Positive semidefinite: x^dagger M x is a nonnegative real number for
    every column vector x. *)
Definition positive_semidefinite (m : np.ndarray (complex R)) : Prop :=
  forall x, column_for m x ->
    exists q : R, quadratic_form m x = Some [[of_real q]] /\ (0 <= q)%R.

(** [lam] is an eigenvalue of [m]: M x = lam x for a nonzero column x. *)
Definition eigenvalue (m : np.ndarray (complex R)) (lam : complex R) : Prop :=
  exists x, column_for m x /\
            (exists i, np.item x i 0 <> zero) /\
            np.dot m x = Some (np.scalar_multiply lam x).

(** The pure state of the counterexamples: the first basis vector, a unit
    vector also in float64. *)
Definition basis_state : np.ndarray float64 := [[1]; [0]; [0]; [0]]%float.

(** A state with an entry near 1e200: finite, but its square is not. *)
Definition huge_state : np.ndarray float64 :=
  [[0x1.4e718d7d7625ap+664]; [0]; [0]; [0]]%float.

(** The body of the loop of the status reporter, for the list [l] of
    available backends. *)
Definition report_row (provider : IBMQ.Provider) (l : list IBMQ.Backend)
  (n : nat) : Cell unit :=
  (b <- getitem l n ;;
   available_backend <- call (IBMQ.get_backend provider (IBMQ.str b)) ;;
   print (row available_backend))%cell.

(** The values an int64 holds. *)
Definition in_int64 (z : Z) : Prop := (- 2 ^ 63 <= z < 2 ^ 63)%Z.

(** Integers of magnitude at most 2^26: their squares, and the sum of two
    squares, are integers below 2^53, which float64 holds exactly, so
    that neither the order nor the fusing of the accumulation of a dot
    product matters. *)
Definition small_int (z : Z) : Prop := (Z.abs z <= 2 ^ 26)%Z.

(** [np.isnan] *)
Definition isnan (x : float64) : bool :=
  match Prim2SF x with S754_nan => true | _ => false end.

(** Two float64 results that agree: both NaN, or the same float bit for
    bit.  (The kernel's floats have one NaN; the sign and the payload of
    an IEEE NaN are not modelled, and nothing is said about them.) *)
Definition same_float (x y : float64) : Prop :=
  if isnan x then isnan y = true else x = y.

Definition array_same (a b : np.ndarray float64) : Prop :=
  Forall2 (Forall2 same_float) a b.

(** The real number a finite float64 holds, sign * mantissa * 2^exponent
    (0 for an infinity or NaN, which hold none). *)
Definition float_value (x : float64) : R :=
  match Prim2SF x with
  | S754_finite s m e => (IZR (cond_Zopp s (Zpos m)) * powerRZ 2 e)%R
  | _ => 0%R
  end.

(** A float64 matrix read as the matrix of the numbers it holds. *)
Definition exact_entries (a : np.ndarray float64) : np.ndarray (complex R) :=
  map (map (fun x => of_real (float_value x))) a.

(** [np.array([[35],[12],[0],[0]])/37], a state built the way the
    notebook builds [ϕ]: on float64 its squared norm evaluates to 1.0
    in whatever order the two squares are accumulated. *)
Definition tilted_state : np.ndarray float64 :=
  np.divide_scalar (np.astype [[35]; [12]; [0]; [0]]%Z) (of_int 37).

(** The two basis states of one qubit, with complex128 amplitudes:
    |0> = [1, 0] and |1> = [0, 1]. *)
Definition ket (bit : bool) : list (complex float64) :=
  if bit then [(0, 0); (1, 0)]%float else [(1, 0); (0, 0)]%float.

(* ================================================================== *)
(** * Theorems *)
(* ================================================================== *)

(* ------------------------------------------------------------------ *)
(** ** Tactics *)

(** Unfolds the array operations of a goal about explicit rows. *)
Ltac unfold_arrays :=
  cbn;
  unfold np.inner, np.sum, np.broadcast_item, np.item, np.trace,
    np.diagonal;
  cbn.

(** Evaluates the array operations on explicit rows, leaving the
    arithmetic of the real numbers untouched. *)
Ltac compute_arrays :=
  cbv [mixed_state mixed_state_spec outer_product identity_matrix hermitian
       unit_vector quadratic_form phi
       np.dot np.conj np.T np.fromfunction np.item np.nrows np.ncols np.shape
       np.inner np.sum np.eye np.scalar_multiply np.divide_scalar np.array_add
       np.broadcast_axis np.broadcast_item np.trace np.diagonal np.astype
       map seq nth hd length fold_left combine fst snd Nat.eqb Nat.min app
       add zero one multiply subtract negative conjugate true_divide of_int
       sqrt complex_dtype complex_inexact R_dtype R_inexact R_floating
       cadd csubtract cmultiply cconjugate cnegative ctrue_divide
       of_real real imag
       Z.pow Z.pow_pos Pos.iter Z.mul Pos.mul Pos.add Pos.succ].

(** Splits the boolean conjunctions among the hypotheses. *)
Ltac split_andb :=
  repeat match goal with
         | Hc : (_ && _) = true |- _ => apply andb_prop in Hc; destruct Hc
         end.

(* ------------------------------------------------------------------ *)
(** ** The unitarity and norm checks *)

(** C3: for the bit-flip matrix [X = [[0,1],[1,0]]] of the notebook, both
    [X.dot(X.T.conj())] and [X.T.conj().dot(X)] are the 2x2 identity
    matrix, with integer entries. *)
Theorem X_unitary :
  XXdagger = Some [[1; 0]; [0; 1]]%Z /\
  XdaggerX = Some [[1; 0]; [0; 1]]%Z /\
  Some (@np.eye int64 _ 2) = XXdagger.
Proof. repeat split; vm_compute; reflexivity. Qed.

(** C7: for the basis vector [[1],[0]] and the bit-flip matrix [X], the
    Euclidean norm computed before applying [X] and the one computed
    after applying [X] are both exactly the float 1.0. *)
Theorem norm_preserved :
  norm_before = 1%float /\ norm_after = Some 1%float.
Proof. split; vm_compute; reflexivity. Qed.


(* ------------------------------------------------------------------ *)
(** ** Shapes *)

Lemma column4_inv {A : Type} (psi : np.ndarray A) :
  column4 psi -> exists a b c d, psi = [[a]; [b]; [c]; [d]].
Proof.
  unfold column4, np.shape, np.nrows, np.ncols, np.rectangular.
  intros [Hs Hr]. injection Hs as Hn Hc.
  destruct psi as [|r0 [|r1 [|r2 [|r3 [|? ?]]]]]; try discriminate.
  cbn in Hc, Hr. rewrite Hc in Hr. cbn in Hr.
  repeat (apply andb_prop in Hr; destruct Hr as [? Hr]).
  repeat match goal with
         | Hl : Nat.eqb (length ?r) 1 = true |- _ =>
             apply Nat.eqb_eq in Hl;
             destruct r as [|? [|? ?]]; try discriminate Hl; clear Hl
         end.
  destruct r0 as [|? [|? ?]]; try discriminate Hc.
  eauto.
Qed.

Lemma column4_intro {A : Type} (a b c d : A) : column4 [[a]; [b]; [c]; [d]].
Proof. split; reflexivity. Qed.

(* ------------------------------------------------------------------ *)
(** ** float64 arithmetic *)

Lemma float_add_zero_l (x : float64) :
  Prim2SF x <> S754_zero true -> PrimFloat.add 0%float x = x.
Proof.
  intros Hx. apply Prim2SF_inj. rewrite add_spec.
  change (Prim2SF 0%float) with (S754_zero false).
  destruct (Prim2SF x) as [[|]| | |]; try reflexivity. now elim Hx.
Qed.

Lemma SF64mul_comm (x y : spec_float) : SF64mul x y = SF64mul y x.
Proof.
  destruct x as [sx|sx| |sx mx ex], y as [sy|sy| |sy my ey];
    unfold SF64mul, SFmul;
    rewrite ?(xorb_comm sx sy), ?(Pos.mul_comm mx my), ?(Z.add_comm ex ey);
    reflexivity.
Qed.

Lemma float_mul_comm (x y : float64) : PrimFloat.mul x y = PrimFloat.mul y x.
Proof. apply Prim2SF_inj. rewrite !mul_spec. apply SF64mul_comm. Qed.

Lemma feq_refl (x : float64) : feq x x.
Proof. now left. Qed.

(** Accumulating a product from zero changes at most the sign of a zero. *)
Lemma scaled_sum_feq (v p w : float64) :
  feq (PrimFloat.add (PrimFloat.mul v (PrimFloat.add 0%float p)) w)
      (PrimFloat.add (PrimFloat.mul v p) w).
Proof.
  destruct (Prim2SF p) as [[|]| | |] eqn:Ep;
    try (rewrite float_add_zero_l by (rewrite Ep; discriminate);
         apply feq_refl).
  assert (E0 : Prim2SF (PrimFloat.add 0%float p) = S754_zero false)
    by (rewrite add_spec, Ep; reflexivity).
  unfold feq, is_zero.
  rewrite !add_spec, !mul_spec, E0, Ep.
  destruct (Prim2SF v) as [[|]|[|]| |[|] mv ev] eqn:Ev,
           (Prim2SF w) as [[|]|[|]| |[|] mw ew] eqn:Ew;
    cbn; try (right; split; reflexivity); left; apply Prim2SF_inj;
    rewrite !add_spec, !mul_spec, E0, Ep, Ev, Ew; reflexivity.
Qed.

(* ------------------------------------------------------------------ *)
(** ** The mixed state *)

Lemma mixed_state_column {A : Type} `{Inexact A} (a b c d v : A) :
  (forall x : A, add zero x = x) ->
  mixed_state [[a]; [b]; [c]; [d]] v
  = Some (mixed_state_spec [[a]; [b]; [c]; [d]] v).
Proof. intros L. unfold_arrays. rewrite !L. reflexivity. Qed.

Lemma mixed_state_column_float (a b c d v : float64) :
  exists m, mixed_state [[a]; [b]; [c]; [d]] v = Some m /\
            array_feq m (mixed_state_spec [[a]; [b]; [c]; [d]] v).
Proof.
  eexists. split; [reflexivity|].
  unfold_arrays.
  repeat (constructor; [repeat (constructor; [apply scaled_sum_feq|])|]);
    constructor.
Qed.

Lemma complex_add_zero_l (x : complex R) : add zero x = x.
Proof.
  destruct x as [a b]. cbn. unfold cadd, of_real. cbn.
  now rewrite !Rplus_0_l.
Qed.

(** C1: applied to a column vector [psi] of four entries and a scalar
    [v], [mixed_state] returns v (psi psi^dagger) + (1 - v) I / 4, entry
    by entry: exactly in every dtype whose addition has zero as a left
    identity (the real and the complex numbers), and on float64 with
    entries equal as numbers (the accumulation of the dot product from
    0.0 can only turn a -0.0 into 0.0). *)
Theorem mixed_state_formula :
  (forall (A : Type) (D : Dtype A) (I : Inexact A),
      (forall x : A, add zero x = x) ->
      forall (psi : np.ndarray A) (v : A),
        column4 psi ->
        mixed_state psi v = Some (mixed_state_spec psi v)) /\
  (forall (psi : np.ndarray float64) (v : float64),
      column4 psi ->
      exists m, mixed_state psi v = Some m /\
                array_feq m (mixed_state_spec psi v)).
Proof.
  split.
  - intros A D I L psi v Hc.
    destruct (column4_inv psi Hc) as (a & b & c & d & ->).
    now apply mixed_state_column.
  - intros psi v Hc.
    destruct (column4_inv psi Hc) as (a & b & c & d & ->).
    apply mixed_state_column_float.
Qed.

Lemma mixed_state_formula_witness :
  mixed_state (A := R) [[1]; [0]; [0]; [0]]%R (1 / 2)%R
  = Some (mixed_state_spec [[1]; [0]; [0]; [0]]%R (1 / 2)%R) /\
  mixed_state (A := complex R)
    [[(0, 1)]; [(0, 0)]; [(0, 0)]; [(0, 0)]]%R (of_real (1 / 2)%R)
  = Some (mixed_state_spec
            [[(0, 1)]; [(0, 0)]; [(0, 0)]; [(0, 0)]]%R (of_real (1 / 2)%R)) /\
  exists m, mixed_state (A := float64) phi v_0_8 = Some m /\
            array_feq m (mixed_state_spec phi v_0_8).
Proof.
  split; [|split].
  - apply (proj1 mixed_state_formula R R_dtype R_inexact Rplus_0_l).
    apply column4_intro.
  - apply (proj1 mixed_state_formula (complex R) complex_dtype complex_inexact
             complex_add_zero_l).
    apply column4_intro.
  - apply (proj2 mixed_state_formula). split; reflexivity.
Defined.

(* ------------------------------------------------------------------ *)
(** ** Products of float64 numbers of magnitude at most 1 are finite *)

Section FiniteProducts.
Local Open Scope Z_scope.

(** The number of binary digits of a mantissa. *)

Lemma digits2_pos_bound (p : positive) (k : Z) :
  0 <= k -> Zpos p < 2 ^ k -> Zpos (digits2_pos p) <= k.
Proof.
  revert k. induction p as [p IH|p IH|]; intros k Hk Hp; cbn [digits2_pos].
  - assert (k <> 0) by (intros ->; cbn in Hp; lia).
    replace k with (Z.succ (k - 1)) in Hp by lia.
    rewrite Z.pow_succ_r in Hp by lia.
    specialize (IH (k - 1)). lia.
  - assert (k <> 0) by (intros ->; cbn in Hp; lia).
    replace k with (Z.succ (k - 1)) in Hp by lia.
    rewrite Z.pow_succ_r in Hp by lia.
    specialize (IH (k - 1)). lia.
  - assert (k <> 0) by (intros ->; cbn in Hp; lia). lia.
Qed.

Lemma digits2_pos_gt (p : positive) : Zpos p < 2 ^ Zpos (digits2_pos p).
Proof.
  induction p as [p IH|p IH|]; cbn [digits2_pos]; rewrite ?Pos2Z.inj_succ,
    ?Z.pow_succ_r by lia; lia.
Qed.

Lemma Zdigits2_bound (m k : Z) : 0 <= k -> 0 <= m < 2 ^ k -> Zdigits2 m <= k.
Proof.
  intros Hk [H0 Hm]. destruct m as [|p|p]; cbn [Zdigits2]; try lia.
  now apply digits2_pos_bound.
Qed.

(** Shifting to the right keeps a mantissa nonnegative and bounded. *)

Lemma shr_1_bounded (B : Z) (r : shr_record) :
  shr_bounded B r -> shr_bounded B (shr_1 r).
Proof.
  unfold shr_bounded. destruct r as [m rb sb]. cbn [shr_m shr_1].
  destruct m as [|[p|p|]|[p|p|]]; cbn [shr_m]; lia.
Qed.

Lemma iter_pos_bounded (B : Z) (p : positive) (r : shr_record) :
  shr_bounded B r -> shr_bounded B (@SpecFloat.iter_pos _ shr_1 p r).
Proof.
  revert r. induction p as [p IH|p IH|]; intros r Hr; cbn [SpecFloat.iter_pos].
  - apply IH, IH, shr_1_bounded, Hr.
  - apply IH, IH, Hr.
  - apply shr_1_bounded, Hr.
Qed.

Lemma shr_fexp_bounded (B m e : Z) (l : location) :
  0 <= m <= B ->
  shr_bounded B (fst (shr_fexp prec emax m e l)) /\
  snd (shr_fexp prec emax m e l)
  <= Z.max e (fexp prec emax (Zdigits2 m + e)).
Proof.
  intros Hm. unfold shr_fexp, shr.
  assert (Hr : shr_bounded B (shr_record_of_loc m l)).
  { unfold shr_bounded. destruct l as [|[| |]]; exact Hm. }
  destruct (fexp prec emax (Zdigits2 m + e) - e) as [|p|p] eqn:En;
    cbn [fst snd]; split; try exact Hr; try lia.
  now apply iter_pos_bounded.
Qed.

Lemma round_nearest_even_bounded (m : Z) (l : location) :
  0 <= m -> 0 <= round_nearest_even m l <= m + 1.
Proof.
  intros Hm. unfold round_nearest_even.
  destruct l as [|[| |]]; try destruct (Z.even m); lia.
Qed.

Lemma binary_round_aux_finite (s : bool) (m e : Z) :
  0 <= m < 2 ^ 106 -> e <= 0 ->
  finite_or_zero (binary_round_aux prec emax s m e loc_Exact) = true.
Proof.
  intros Hm He. unfold binary_round_aux.
  destruct (shr_fexp_bounded (2 ^ 106 - 1) m e loc_Exact ltac:(lia)) as [Hb1 He1].
  destruct (shr_fexp prec emax m e loc_Exact) as [mrs' e'].
  cbn [fst snd] in Hb1, He1. unfold shr_bounded in Hb1.
  pose proof (round_nearest_even_bounded (shr_m mrs') (loc_of_shr_record mrs')
                ltac:(lia)) as Hr.
  set (m2 := round_nearest_even (shr_m mrs') (loc_of_shr_record mrs')) in *.
  destruct (shr_fexp_bounded (2 ^ 106) m2 e' loc_Exact ltac:(lia)) as [Hb2 He2].
  destruct (shr_fexp prec emax m2 e' loc_Exact) as [mrs'' e''].
  cbn [fst snd] in Hb2, He2. unfold shr_bounded in Hb2.
  assert (Hd1 : Zdigits2 m <= 106) by (apply Zdigits2_bound; lia).
  assert (Hd2 : Zdigits2 m2 <= 107).
  { apply Zdigits2_bound; [lia|]. change (2 ^ 107) with (2 * 2 ^ 106). lia. }
  unfold fexp, emin in He1, He2.
  change prec with 53 in *. change emax with 1024 in *.
  destruct (shr_m mrs'') as [|p|p]; try reflexivity; [|lia].
  destruct (Z.leb_spec e'' (1024 - 53)); [reflexivity|lia].
Qed.

Lemma valid_mantissa (s : bool) (m : positive) (e : Z) :
  valid_binary (S754_finite s m e) = true -> Zpos m < 2 ^ 53.
Proof.
  unfold valid_binary, bounded, canonical_mantissa, fexp, emin.
  change prec with 53. change emax with 1024.
  intros H. apply andb_prop in H. destruct H as [H _].
  apply Z.eqb_eq in H.
  pose proof (digits2_pos_gt m) as Hg.
  unfold fexp, emin in H.
  assert (Zpos (digits2_pos m) <= 53) by lia.
  eapply Z.lt_le_trans; [exact Hg|].
  apply Z.pow_le_mono_r; lia.
Qed.

Lemma SF64mul_finite (x y : spec_float) :
  valid_binary x = true -> valid_binary y = true ->
  (forall s m e, x = S754_finite s m e -> e <= 0) ->
  (forall s m e, y = S754_finite s m e -> e <= 0) ->
  finite_or_zero x = true -> finite_or_zero y = true ->
  finite_or_zero (SF64mul x y) = true.
Proof.
  intros Vx Vy Ex Ey Fx Fy.
  destruct x as [sx|sx| |sx mx ex], y as [sy|sy| |sy my ey];
    try discriminate; try reflexivity.
  unfold SF64mul, SFmul.
  apply binary_round_aux_finite.
  - apply valid_mantissa in Vx, Vy.
    rewrite Pos2Z.inj_mul. change (2 ^ 106) with (2 ^ 53 * 2 ^ 53). nia.
  - specialize (Ex _ _ _ eq_refl). specialize (Ey _ _ _ eq_refl). lia.
Qed.

Lemma magnitude_at_most_one_spec (x : float64) :
  magnitude_at_most_one x = true ->
  finite_or_zero (Prim2SF x) = true /\
  forall s m e, Prim2SF x = S754_finite s m e -> e <= 0.
Proof.
  unfold magnitude_at_most_one. rewrite leb_spec, abs_spec.
  change (Prim2SF 1) with (S754_finite false 4503599627370496 (-52)).
  destruct (Prim2SF x) as [s|s| |s m e]; cbv [SFleb SFcompare SFabs].
  - intros _. split; [reflexivity|discriminate].
  - destruct s; discriminate.
  - discriminate.
  - intros H. split; [reflexivity|]. intros s' m' e' E.
    injection E as _ _ Ee. rewrite <- Ee. clear Ee s' m' e'.
    destruct (Z.compare e (-52)) eqn:Ec.
    + apply Z.compare_eq_iff in Ec. clear H. lia.
    + change (e < -52) in Ec. clear H. lia.
    + destruct s; discriminate H.
Qed.

Lemma product_finite (x y : float64) :
  magnitude_at_most_one x = true -> magnitude_at_most_one y = true ->
  isfinite (PrimFloat.add 0 (PrimFloat.mul x y)) = true.
Proof.
  intros Hx Hy.
  apply magnitude_at_most_one_spec in Hx, Hy.
  destruct Hx as [Fx Ex], Hy as [Fy Ey].
  pose proof (SF64mul_finite (Prim2SF x) (Prim2SF y) (Prim2SF_valid x) (Prim2SF_valid y) Ex Ey Fx Fy) as H.
  unfold isfinite. rewrite add_spec, mul_spec.
  change (Prim2SF 0) with (S754_zero false).
  destruct (SF64mul (Prim2SF x) (Prim2SF y)) as [[|]|[|]| |s m e]; try discriminate H; reflexivity.
Qed.

End FiniteProducts.

Lemma zero_visibility_entry (x : float64) :
  isfinite x = true ->
  PrimFloat.add (PrimFloat.mul 0 x) 0.25 = 0.25%float /\
  PrimFloat.add (PrimFloat.mul 0 x) 0 = 0%float.
Proof.
  unfold isfinite. intros Hx.
  split; apply Prim2SF_inj; rewrite add_spec, mul_spec;
    destruct (Prim2SF x) as [[|]|[|]| |[|] m e]; try discriminate Hx;
    reflexivity.
Qed.

Lemma mixed_state_zero_float (a b c d : float64) :
  option_map all_finite
    (np.dot [[a]; [b]; [c]; [d]] (np.conj (np.T [[a]; [b]; [c]; [d]])))
  = Some true ->
  mixed_state [[a]; [b]; [c]; [d]] 0%float
  = Some (np.divide_scalar (np.eye 4) (of_int 4)).
Proof.
  intros Hf.
  cbn -[isfinite] in Hf. unfold np.inner, np.sum in Hf.
  cbn -[isfinite] in Hf. injection Hf as Hf.
  split_andb.
  vm_compute.
  repeat match goal with
         | Hx : isfinite ?x = true |- _ =>
             rewrite ?(proj1 (zero_visibility_entry x Hx)),
                     ?(proj2 (zero_visibility_entry x Hx)); clear Hx
         end.
  reflexivity.
Qed.

Lemma mixed_state_zero_exact (a b c d : complex R) :
  mixed_state [[a]; [b]; [c]; [d]] (of_real 0%R)
  = Some (np.divide_scalar (np.eye 4) (of_int 4)).
Proof.
  destruct a as [ar ai], b as [br bi], c as [cr ci], d as [dr di].
  compute_arrays. repeat (f_equal; try field).
Qed.

Lemma mixed_state_zero_unit_entries (a b c d : float64) :
  entries_at_most_one [[a]; [b]; [c]; [d]] = true ->
  mixed_state [[a]; [b]; [c]; [d]] 0%float
  = Some (np.divide_scalar (np.eye 4) (of_int 4)).
Proof.
  intros He. apply mixed_state_zero_float.
  cbn -[magnitude_at_most_one] in He. split_andb.
  cbn -[isfinite]. unfold np.inner, np.sum. cbn -[isfinite].
  now rewrite !product_finite.
Qed.

(** C6 (as amended): with visibility 0.0, [mixed_state] returns exactly
    I/4 on float64 for every column vector whose outer product
    psi psi^dagger has only finite entries (no product of two entries
    overflows), in particular for every vector with entries of magnitude
    at most 1.0, as every normalised state has; and in exact arithmetic
    for every column vector. *)
Theorem mixed_state_zero_visibility :
  (forall psi : np.ndarray float64,
      column4 psi ->
      option_map all_finite (np.dot psi (np.conj (np.T psi))) = Some true ->
      mixed_state psi 0%float = Some (np.divide_scalar (np.eye 4) (of_int 4))) /\
  (forall psi : np.ndarray float64,
      column4 psi ->
      entries_at_most_one psi = true ->
      mixed_state psi 0%float = Some (np.divide_scalar (np.eye 4) (of_int 4))) /\
  (forall psi : np.ndarray (complex R),
      column4 psi ->
      mixed_state psi (of_real 0%R)
      = Some (np.divide_scalar (np.eye 4) (of_int 4))).
Proof.
  repeat split; intros psi Hc;
    destruct (column4_inv psi Hc) as (a & b & c & d & ->).
  - apply mixed_state_zero_float.
  - apply mixed_state_zero_unit_entries.
  - apply mixed_state_zero_exact.
Qed.

Lemma mixed_state_zero_visibility_witness :
  mixed_state (A := float64) [[2]; [0]; [0]; [3]]%float 0%float
  = Some [[0.25; 0; 0; 0]; [0; 0.25; 0; 0]; [0; 0; 0.25; 0]; [0; 0; 0; 0.25]]%float
  /\
  mixed_state (A := float64) phi 0%float
  = Some [[0.25; 0; 0; 0]; [0; 0.25; 0; 0]; [0; 0; 0.25; 0]; [0; 0; 0; 0.25]]%float
  /\
  mixed_state (A := complex R) [[one]; [zero]; [zero]; [zero]] (of_real 0%R)
  = Some (np.divide_scalar (np.eye 4) (of_int 4)).
Proof.
  split; [|split].
  - apply (proj1 mixed_state_zero_visibility [[2]; [0]; [0]; [3]]%float).
    + split; reflexivity.
    + vm_compute. reflexivity.
  - apply (proj1 (proj2 mixed_state_zero_visibility) phi).
    + split; reflexivity.
    + vm_compute. reflexivity.
  - apply (proj2 (proj2 mixed_state_zero_visibility)). apply column4_intro.
Defined.

(** C6 (counterexample): the entries of [huge_state] are finite, yet
    [mixed_state(huge_state, 0.0)] has NaN in its first entry, because
    the square of 1e200 overflows to infinity and 0.0 * inf is NaN; the
    result is not I/4. *)
Lemma mixed_state_zero_visibility_overflow :
  column4 huge_state /\
  all_finite huge_state = true /\
  mixed_state huge_state 0%float
  = Some [[nan; 0; 0; 0]; [0; 0.25; 0; 0]; [0; 0; 0.25; 0]; [0; 0; 0; 0.25]]%float
  /\
  mixed_state huge_state 0%float
  <> Some (np.divide_scalar (np.eye 4) (of_int 4)).
Proof.
  split; [split; reflexivity|].
  split; [vm_compute; reflexivity|].
  split; [vm_compute; reflexivity|].
  intros E.
  apply (f_equal (fun r => match r with
                           | Some m => Prim2SF (np.item m 0 0)
                           | None => S754_nan
                           end)) in E.
  vm_compute in E. discriminate E.
Qed.

(* ------------------------------------------------------------------ *)
(** ** Full visibility *)

Lemma sqrt2_inv_sqr : (1 / R_sqrt.sqrt 2 * (1 / R_sqrt.sqrt 2) = 1 / 2)%R.
Proof.
  assert (H2 : (R_sqrt.sqrt 2 * R_sqrt.sqrt 2 = 2)%R) by (apply sqrt_sqrt; lra).
  assert (Hn : R_sqrt.sqrt 2 <> 0%R) by (intros E; rewrite E in H2; lra).
  field_simplify; [|exact Hn]. rewrite <- Rsqr_pow2. unfold Rsqr.
  rewrite H2. reflexivity.
Qed.

(** C5: with visibility 1.0 and the entangled state
    phi = [1,0,0,1]^t / sqrt 2, [mixed_state] returns exactly the outer
    product phi phi^dagger: the identity term is multiplied by
    1 - 1.0 = 0.0 and adds nothing.  On float64 the entries are those
    numpy computes (0.49999999999999989, printed as 0.5); in exact
    arithmetic they are 1/2. *)
Theorem mixed_state_full_visibility :
  mixed_state (A := float64) phi v_1_0 = np.dot phi (np.conj (np.T phi)) /\
  mixed_state (A := float64) phi v_1_0
  = Some [[0x1.ffffffffffffep-2; 0; 0; 0x1.ffffffffffffep-2];
          [0; 0; 0; 0];
          [0; 0; 0; 0];
          [0x1.ffffffffffffep-2; 0; 0; 0x1.ffffffffffffep-2]]%float /\
  np.scalar_multiply (subtract (of_int 1) v_1_0)
                     (np.divide_scalar (np.eye 4) (of_int (2 ^ 2)))
  = [[0; 0; 0; 0]; [0; 0; 0; 0]; [0; 0; 0; 0]; [0; 0; 0; 0]]%float /\
  mixed_state (A := R) phi 1%R = Some (outer_product phi) /\
  mixed_state (A := R) phi 1%R
  = Some [[1 / 2; 0; 0; 1 / 2]; [0; 0; 0; 0];
          [0; 0; 0; 0]; [1 / 2; 0; 0; 1 / 2]]%R.
Proof.
  repeat split; try (vm_compute; reflexivity).
  - compute_arrays. unfold Rdiv. repeat (f_equal; try ring).
  - compute_arrays.
    repeat (f_equal;
            try (rewrite sqrt2_inv_sqr; field);
            try (unfold Rdiv; ring)).
Qed.

(** The four matrices the cell prints, as float64 computes them; numpy
    shows them rounded to three decimals (0.5; 0.45, 0.4, 0.05; 0.4, 0.3,
    0.1; 0.3, 0.1, 0.2), as in the recorded output. *)
Example printed_states_values :
  printed_states
  = [ Some [[0x1.ffffffffffffep-2; 0; 0; 0x1.ffffffffffffep-2];
            [0; 0; 0; 0];
            [0; 0; 0; 0];
            [0x1.ffffffffffffep-2; 0; 0; 0x1.ffffffffffffep-2]];
      Some [[0x1.ccccccccccccbp-2; 0; 0; 0x1.9999999999998p-2];
            [0; 0x1.9999999999998p-5; 0; 0];
            [0; 0; 0x1.9999999999998p-5; 0];
            [0x1.9999999999998p-2; 0; 0; 0x1.ccccccccccccbp-2]];
      Some [[0x1.9999999999998p-2; 0; 0; 0x1.3333333333332p-2];
            [0; 0x1.999999999999ap-4; 0; 0];
            [0; 0; 0x1.999999999999ap-4; 0];
            [0x1.3333333333332p-2; 0; 0; 0x1.9999999999998p-2]];
      Some [[0x1.3333333333333p-2; 0; 0; 0x1.9999999999998p-4];
            [0; 0x1.999999999999ap-3; 0; 0];
            [0; 0; 0x1.999999999999ap-3; 0];
            [0x1.9999999999998p-4; 0; 0; 0x1.3333333333333p-2]] ]%float.
Proof. vm_compute. reflexivity. Qed.

(** The recorded output of the status reporter is what the model prints
    for the recorded account. *)
Example recorded_output_reproduced :
  status_report recorded_provider [] = (inr tt, recorded_output).
Proof. vm_compute. reflexivity. Qed.

(* ------------------------------------------------------------------ *)
(** ** Trace and Hermiticity *)

Lemma mixed_state_exact_density (a b c d : complex R) (v : R) :
  unit_vector [[a]; [b]; [c]; [d]] ->
  exists m, mixed_state [[a]; [b]; [c]; [d]] (of_real v) = Some m /\
            np.trace m = one /\ hermitian m.
Proof.
  intros U. eexists. split; [reflexivity|].
  destruct a as [ar ai], b as [br bi], c as [cr ci], d as [dr di].
  revert U. compute_arrays. intros U. injection U as Ur Ui.
  split.
  - f_equal.
    + match type of Ur with
      | ?L = _ => transitivity (v * L + (1 - v))%R
      end; [field | rewrite Ur; ring].
    + field.
  - repeat (f_equal; try field).
Qed.

Lemma mixed_state_float_hermitian (a b c d v : float64) :
  exists m, mixed_state [[a]; [b]; [c]; [d]] v = Some m /\ hermitian m.
Proof.
  eexists. split; [reflexivity|].
  unfold hermitian. unfold_arrays.
  rewrite (float_mul_comm b a), (float_mul_comm c a), (float_mul_comm d a),
    (float_mul_comm c b), (float_mul_comm d b), (float_mul_comm d c).
  reflexivity.
Qed.

(** C2 (as amended): for every real scalar [v] and every unit vector
    [psi], the matrix returned by [mixed_state] is Hermitian and, in exact
    arithmetic, has trace 1; computed on float64 it is Hermitian for every
    column vector [psi] and every [v] (its trace is then rounded, and need
    not be exactly 1.0). *)
Theorem mixed_state_trace_hermitian :
  (forall (psi : np.ndarray (complex R)) (v : R),
      column4 psi -> unit_vector psi ->
      exists m, mixed_state psi (of_real v) = Some m /\
                np.trace m = one /\ hermitian m) /\
  (forall (psi : np.ndarray float64) (v : float64),
      column4 psi ->
      exists m, mixed_state psi v = Some m /\ hermitian m).
Proof.
  split.
  - intros psi v Hc U.
    destruct (column4_inv psi Hc) as (a & b & c & d & ->).
    now apply mixed_state_exact_density.
  - intros psi v Hc.
    destruct (column4_inv psi Hc) as (a & b & c & d & ->).
    apply mixed_state_float_hermitian.
Qed.

Lemma unit_vector_basis_exact :
  unit_vector (A := complex R) [[one]; [zero]; [zero]; [zero]].
Proof. compute_arrays. repeat (f_equal; try ring). Qed.

Lemma mixed_state_trace_hermitian_witness :
  (exists m, mixed_state (A := complex R) [[one]; [zero]; [zero]; [zero]]
               (of_real (4 / 5)%R) = Some m /\
             np.trace m = one /\ hermitian m) /\
  (exists m, mixed_state (A := float64) phi v_0_8 = Some m /\ hermitian m).
Proof.
  split.
  - apply (proj1 mixed_state_trace_hermitian).
    + apply column4_intro.
    + exact unit_vector_basis_exact.
  - apply (proj2 mixed_state_trace_hermitian). split; reflexivity.
Defined.

(** C2 (counterexample): on float64, as the notebook computes, the trace
    is not exactly 1.0.  For the first printed call, [mixed_state(phi, 1.0)],
    the diagonal is 0.49999999999999989, 0, 0, 0.49999999999999989 and the
    trace 0.99999999999999978 (the traces of the four printed matrices
    are 0.99999999999999978 three times, and 1.0); for the first basis
    vector, a unit vector also in float64, and the visibility 0.6 the
    trace is 0.99999999999999989. *)
Lemma mixed_state_trace_rounded :
  option_map np.trace (mixed_state (A := float64) phi v_1_0)
  = Some 0x1.ffffffffffffep-1%float /\
  option_map np.trace (mixed_state (A := float64) phi v_1_0) <> Some 1%float /\
  map (option_map np.trace) printed_states
  = [Some 0x1.ffffffffffffep-1; Some 0x1.ffffffffffffep-1;
     Some 0x1.ffffffffffffep-1; Some 1]%float /\
  unit_vector basis_state /\
  option_map np.trace (mixed_state basis_state v_0_6)
  = Some 0x1.fffffffffffffp-1%float /\
  option_map np.trace (mixed_state basis_state v_0_6) <> Some 1%float.
Proof.
  assert (Hne : forall x y : float64,
             Prim2SF x <> Prim2SF y -> Some x <> Some y).
  { intros x y Hxy E. injection E as E. apply Hxy. now rewrite E. }
  repeat split; try (vm_compute; reflexivity);
    apply Hne; vm_compute; discriminate.
Qed.

(* ------------------------------------------------------------------ *)
(** ** Positive semidefiniteness *)

Lemma column_for4_inv {A : Type} `{Dtype A}
  (r0 r1 r2 r3 : list A) (x : np.ndarray A) :
  column_for [r0; r1; r2; r3] x -> exists a b c d, x = [[a]; [b]; [c]; [d]].
Proof. intros Hx. now apply column4_inv. Qed.

(** The quadratic form of the mixed state: v |<psi, x>|^2 + (1 - v) |x|^2 / 4. *)
Lemma mixed_state_quadratic_form (a b c d x0 x1 x2 x3 : complex R) (v : R) :
  match mixed_state [[a]; [b]; [c]; [d]] (of_real v) with
  | Some m =>
      quadratic_form m [[x0]; [x1]; [x2]; [x3]]
      = Some [[of_real
                 (v * ((real a * real x0 + imag a * imag x0
                        + real b * real x1 + imag b * imag x1
                        + real c * real x2 + imag c * imag x2
                        + real d * real x3 + imag d * imag x3) ^ 2
                       + (real a * imag x0 - imag a * real x0
                          + real b * imag x1 - imag b * real x1
                          + real c * imag x2 - imag c * real x2
                          + real d * imag x3 - imag d * real x3) ^ 2)
                  + (1 - v) / 4
                    * (real x0 ^ 2 + imag x0 ^ 2 + real x1 ^ 2 + imag x1 ^ 2
                       + real x2 ^ 2 + imag x2 ^ 2 + real x3 ^ 2
                       + imag x3 ^ 2))%R]]
  | None => False
  end.
Proof.
  destruct a as [ar ai], b as [br bi], c as [cr ci], d as [dr di].
  destruct x0 as [x0r x0i], x1 as [x1r x1i], x2 as [x2r x2i], x3 as [x3r x3i].
  compute_arrays. do 4 f_equal; field.
Qed.

Lemma mixed_state_rows {A : Type} `{Inexact A}
  (psi m : np.ndarray A) (v : A) :
  mixed_state psi v = Some m -> exists r0 r1 r2 r3, m = [r0; r1; r2; r3].
Proof.
  unfold mixed_state, np.array_add.
  destruct (np.dot psi _) as [dm|]; [|discriminate].
  destruct (np.broadcast_axis _ _) as [r|] eqn:Er; [|discriminate].
  destruct (np.broadcast_axis (np.ncols _) _) as [c|]; [|discriminate].
  intros E. injection E as <-.
  assert (r = 4) as ->.
  { revert Er. unfold np.broadcast_axis, np.nrows, np.scalar_multiply,
      np.divide_scalar. rewrite !length_map. cbn [np.eye np.fromfunction
      length map seq].
    destruct (Nat.eqb_spec (length dm) 4) as [->|_]; [now intros [= <-]|].
    destruct (Nat.eqb_spec (length dm) 1) as [_|_]; [now intros [= <-]|].
    cbn. now intros [= <-]. }
  cbn. eauto.
Qed.

Lemma mixed_state_psd (a b c d : complex R) (v : R) :
  (0 <= v <= 1)%R ->
  exists m, mixed_state [[a]; [b]; [c]; [d]] (of_real v) = Some m /\
            positive_semidefinite m.
Proof.
  intros Hv.
  destruct (mixed_state [[a]; [b]; [c]; [d]] (of_real v)) as [m|] eqn:Em;
    [|discriminate Em].
  exists m. split; [reflexivity|].
  intros x Hx.
  assert (Hx4 : exists x0 x1 x2 x3, x = [[x0]; [x1]; [x2]; [x3]]).
  { destruct (mixed_state_rows _ _ _ Em) as (r0 & r1 & r2 & r3 & ->).
    revert Hx. apply column_for4_inv. }
  destruct Hx4 as (x0 & x1 & x2 & x3 & ->).
  pose proof (mixed_state_quadratic_form a b c d x0 x1 x2 x3 v) as Q.
  rewrite Em in Q. eexists. split; [exact Q|].
  apply Rplus_le_le_0_compat; apply Rmult_le_pos; try lra;
    repeat apply Rplus_le_le_0_compat; apply pow2_ge_0.
Qed.

(** An eigenvalue of a positive semidefinite 4x4 matrix is a nonnegative
    real number: x^dagger M x = lam |x|^2. *)
Lemma psd_eigenvalue (r0 r1 r2 r3 : list (complex R)) (lam : complex R) :
  positive_semidefinite [r0; r1; r2; r3] ->
  eigenvalue [r0; r1; r2; r3] lam ->
  imag lam = 0%R /\ (0 <= real lam)%R.
Proof.
  intros Hpsd (x & Hx & (i & Hi) & Hmx).
  destruct (Hpsd x Hx) as (q & Hq & Hq0).
  destruct (column_for4_inv _ _ _ _ _ Hx) as (x0 & x1 & x2 & x3 & ->).
  unfold quadratic_form in Hq. rewrite Hmx in Hq. clear Hmx Hpsd Hx.
  destruct lam as [lr li].
  destruct x0 as [x0r x0i], x1 as [x1r x1i], x2 as [x2r x2i], x3 as [x3r x3i].
  revert Hq. compute_arrays. intros Hq. injection Hq as Hr Hi'.
  set (n := (x0r * x0r + x0i * x0i + x1r * x1r + x1i * x1i
             + x2r * x2r + x2i * x2i + x3r * x3r + x3i * x3i)%R).
  assert (Er : (lr * n = q)%R) by (rewrite <- Hr; unfold n; ring).
  assert (Ei : (li * n = 0)%R) by (rewrite <- Hi'; unfold n; ring).
  assert (Hn : (0 < n)%R).
  { destruct (Rle_lt_dec n 0) as [Hle|Hlt]; [exfalso|exact Hlt].
    assert (x0r = 0 /\ x0i = 0 /\ x1r = 0 /\ x1i = 0 /\
            x2r = 0 /\ x2i = 0 /\ x3r = 0 /\ x3i = 0)%R as
      (-> & -> & -> & -> & -> & -> & -> & ->)
      by (unfold n in Hle; repeat split; nra).
    apply Hi. destruct i as [|[|[|[|[|i]]]]]; reflexivity. }
  cbn [real imag fst snd]. split.
  - destruct (Rmult_integral _ _ Ei) as [E|E]; [exact E|lra].
  - destruct (Rle_lt_dec 0 lr) as [Hle|Hlt]; [exact Hle|exfalso; nra].
Qed.

(** C10 (as amended): in exact complex arithmetic, for every unit vector
    [psi] in C^4 and every visibility [v] in [0,1], the matrix returned
    by [mixed_state] is positive semidefinite: its quadratic form is a
    nonnegative real number at every vector, and every eigenvalue is a
    nonnegative real number.  With trace 1 and Hermiticity it is a
    density matrix.  (Computed on float64 the matrix need not be
    positive semidefinite: see the counterexample below.) *)
Theorem mixed_state_positive_semidefinite :
  forall (psi : np.ndarray (complex R)) (v : R),
    column4 psi -> unit_vector psi -> (0 <= v <= 1)%R ->
    exists m, mixed_state psi (of_real v) = Some m /\
              positive_semidefinite m /\
              (forall lam, eigenvalue m lam ->
                           imag lam = 0%R /\ (0 <= real lam)%R) /\
              np.trace m = one /\ hermitian m.
Proof.
  intros psi v Hc U Hv.
  destruct (column4_inv psi Hc) as (a & b & c & d & ->).
  destruct (mixed_state_psd a b c d v Hv) as (m & Em & Hpsd).
  destruct (mixed_state_exact_density a b c d v U) as (m' & Em' & Htr & Hh).
  rewrite Em in Em'. injection Em' as <-.
  exists m. repeat (split; [assumption|]). split; [|split; assumption].
  destruct (mixed_state_rows _ _ _ Em) as (r0 & r1 & r2 & r3 & ->).
  intros lam. now apply psd_eigenvalue.
Qed.

Lemma mixed_state_positive_semidefinite_witness :
  exists m, mixed_state (A := complex R) [[one]; [zero]; [zero]; [zero]]
              (of_real (4 / 5)%R) = Some m /\
            positive_semidefinite m /\
            (forall lam, eigenvalue m lam ->
                         imag lam = 0%R /\ (0 <= real lam)%R) /\
            np.trace m = one /\ hermitian m.
Proof.
  apply mixed_state_positive_semidefinite.
  - apply column4_intro.
  - exact unit_vector_basis_exact.
  - lra.
Defined.

Lemma float_value_finite (x : float64) (s : bool) (m : positive) (e : Z) :
  Prim2SF x = S754_finite s m e ->
  float_value x = (IZR (cond_Zopp s (Zpos m)) * powerRZ 2 e)%R.
Proof. intros E. unfold float_value. now rewrite E. Qed.

Lemma float_value_zero : float_value 0%float = 0%R.
Proof. reflexivity. Qed.

(** C10 (counterexample): on float64, as the notebook computes, the
    returned matrix need not be positive semidefinite.  The state
    [np.array([[35],[12],[0],[0]])/37] is a unit vector on float64
    ([psi.T.conj().dot(psi)] is exactly 1.0), and for the visibility
    1.0, inside [0,1], [mixed_state] returns a finite symmetric matrix
    of trace 1.0 whose entries are the rounded products
    0.8948137326515705, 0.30679327976625276 and 0.10518626734842952.
    Read as exact numbers they give the quadratic form the value
    -143 * 2^-56 at the vector (12, -35, 0, 0): rounding each product on
    its own has made the 2 x 2 minor negative. *)
Lemma mixed_state_psd_rounded :
  column4 tilted_state /\ unit_vector tilted_state /\
  exists m, mixed_state tilted_state v_1_0 = Some m /\
            all_finite m = true /\ hermitian m /\ np.trace m = 1%float /\
            ~ positive_semidefinite (exact_entries m).
Proof.
  split; [split; reflexivity|].
  split; [vm_compute; reflexivity|].
  exists [[0x1.ca25068b8017fp-1; 0x1.3a28047cea1f1p-2; 0; 0];
          [0x1.3a28047cea1f1p-2; 0x1.aed7cba3ff409p-4; 0; 0];
          [0; 0; 0; 0]; [0; 0; 0; 0]]%float.
  split; [vm_compute; reflexivity|].
  split; [vm_compute; reflexivity|].
  split; [vm_compute; reflexivity|].
  split; [vm_compute; reflexivity|].
  intros Hpsd.
  destruct (Hpsd [[(12, 0)]; [(-35, 0)]; [(0, 0)]; [(0, 0)]]%R)
    as (q & Hq & Hq0); [split; reflexivity|].
  revert Hq. unfold exact_entries. cbn [map].
  rewrite float_value_zero.
  rewrite (float_value_finite 0x1.ca25068b8017fp-1%float false
             8059765585871231%positive (-53)%Z)
    by (vm_compute; reflexivity).
  rewrite (float_value_finite 0x1.3a28047cea1f1p-2%float false
             5526696401740273%positive (-54)%Z)
    by (vm_compute; reflexivity).
  rewrite (float_value_finite 0x1.aed7cba3ff409p-4%float false
             7579469350958089%positive (-56)%Z)
    by (vm_compute; reflexivity).
  cbn [cond_Zopp powerRZ].
  compute_arrays. intros Hq. injection Hq as Hq _.
  revert Hq0. rewrite <- Hq.
  change (Pos.to_nat 53) with 53%nat. change (Pos.to_nat 54) with 54%nat.
  change (Pos.to_nat 56) with 56%nat.
  lra.
Qed.

(* ------------------------------------------------------------------ *)
(** ** The two-gate circuit *)

Lemma x_gate_involutive (s0 s1 : complex R) :
  qiskit.apply_gate (np.astype X) 0
    (qiskit.apply_gate (np.astype X) 0 [s0; s1])
  = [s0; s1].
Proof.
  destruct s0 as [a b], s1 as [c d].
  cbn. unfold np.inner, np.sum. cbn. unfold cadd, cmultiply, of_real. cbn.
  repeat (f_equal; try ring).
Qed.

(** C4: the circuit of two X gates on one qubit, run on the statevector
    simulator from the basis state [1,0]^t, ends in [1,0]^t: exactly so
    with complex128 amplitudes, and in exact arithmetic up to a global
    phase (the phase is 1).  Applied twice to any one-qubit state the
    bit-flip operator returns the state, and as a matrix X X is the
    identity: the two applications compose to the identity. *)
Theorem two_x_gates_identity :
  statevector (A := complex float64) = Some [(1, 0); (0, 0)]%float /\
  statevector (A := complex float64)
  = Some (qiskit.initial_statevector 1) /\
  (exists sv, statevector (A := complex R) = Some sv /\
              equal_up_to_global_phase sv [one; zero]) /\
  (forall s0 s1 : complex R,
      qiskit.apply_gate (np.astype X) 0
        (qiskit.apply_gate (np.astype X) 0 [s0; s1])
      = [s0; s1]) /\
  np.dot X X = Some (np.eye 2).
Proof.
  split; [vm_compute; reflexivity|].
  split; [vm_compute; reflexivity|].
  split; [|split; [exact x_gate_involutive|vm_compute; reflexivity]].
  eexists. split; [reflexivity|].
  exists one. split.
  - cbn. unfold cmultiply, cconjugate, of_real. cbn. f_equal; ring.
  - cbn. unfold np.inner, np.sum. cbn. unfold cadd, cmultiply, of_real. cbn.
    repeat (f_equal; try ring).
Qed.

(* ------------------------------------------------------------------ *)
(** ** The status reporter *)

(** With distinct names, [get_backend] finds a listed backend by its
    name. *)
Lemma get_backend_unique (provider : IBMQ.Provider) (b : IBMQ.Backend) :
  NoDup (map IBMQ.name provider) -> In b provider ->
  IBMQ.get_backend provider (IBMQ.name b) = inr b.
Proof.
  intros Hnd Hin.
  assert (E : IBMQ.backends_named provider (IBMQ.name b) = [b]).
  { induction provider as [|b0 p IH]; [contradiction|].
    cbn in Hnd. inversion Hnd as [|? ? Hnotin Hnd']; subst.
    unfold IBMQ.backends_named in *. cbn.
    destruct Hin as [->|Hin].
    - rewrite String.eqb_refl. f_equal.
      clear IH Hnd Hnd'. induction p as [|b1 p IHp]; [reflexivity|].
      cbn in *. destruct (String.eqb_spec (IBMQ.name b1) (IBMQ.name b)) as [E|_].
      + exfalso. apply Hnotin. now left.
      + apply IHp. intros Hc. apply Hnotin. now right.
    - destruct (String.eqb_spec (IBMQ.name b0) (IBMQ.name b)) as [E|_].
      + exfalso. apply Hnotin. rewrite E. now apply in_map.
      + now apply IH. }
  unfold IBMQ.get_backend. now rewrite E.
Qed.

(** One turn of the loop prints the row of the backend at the index. *)
Lemma report_row_run (provider : IBMQ.Provider)
  (done todo : list IBMQ.Backend) (b : IBMQ.Backend) (out : list string) :
  IBMQ.get_backend provider (IBMQ.name b) = inr b ->
  report_row provider (done ++ b :: todo) (length done) out
  = (inr tt, out ++ [row b]).
Proof.
  intros Hget. unfold report_row, bind, getitem, IBMQ.str.
  rewrite nth_error_app2, Nat.sub_diag by lia. cbn [nth_error].
  unfold ret. rewrite Hget. reflexivity.
Qed.

(** The loop from index [length done] on prints the rows of [todo], in
    order. *)
Lemma rows_loop (provider : IBMQ.Provider)
  (done todo : list IBMQ.Backend) (out : list string) :
  (forall b, In b todo -> IBMQ.get_backend provider (IBMQ.name b) = inr b) ->
  for_range (length done) (length todo) (report_row provider (done ++ todo)) out
  = (inr tt, out ++ map row todo).
Proof.
  revert done out. induction todo as [|b todo IH]; intros done out Hget.
  - cbn. now rewrite app_nil_r.
  - cbn [length for_range]. unfold bind.
    rewrite report_row_run by (apply Hget; now left).
    specialize (IH (done ++ [b]) (out ++ [row b])).
    rewrite length_app, Nat.add_1_r, <- app_assoc in IH. cbn [app] in IH.
    rewrite IH by (intros; apply Hget; now right).
    now rewrite <- app_assoc.
Qed.

(** C9: the status reporter prints the two header rows and then exactly
    one row per operational backend of the listing, each row holding the
    name, the qubit count and the pending-job count of that backend, in
    the order of the listing; it raises nothing.  The names of the
    provider's backends are distinct, as [get_backend] requires. *)
Theorem status_report_rows (provider : IBMQ.Provider) (out : list string) :
  NoDup (map IBMQ.name provider) ->
  status_report provider out
  = (inr tt,
     out ++ header_names :: header_rule :: map row (IBMQ.backends provider))
  /\
  length (snd (status_report provider out))
  = length out + 2 + length (IBMQ.backends provider)
  /\
  forall n b, nth_error (IBMQ.backends provider) n = Some b ->
    nth_error (snd (status_report provider out)) (length out + 2 + n)
    = Some (ljust (IBMQ.name b) 20 ++ " "
            ++ ljust (str_int (IBMQ.n_qubits b)) 10 ++ " "
            ++ ljust (str_int (IBMQ.pending_jobs b)) 10)%string.
Proof.
  intros Hnd.
  assert (E : status_report provider out
              = (inr tt, out ++ header_names :: header_rule
                             :: map row (IBMQ.backends provider))).
  { unfold status_report.
    unfold bind at 1, print at 1. unfold bind at 1, print at 1.
    change (for_range 0 (length (IBMQ.backends provider)) _)
      with (for_range (length (@nil IBMQ.Backend))
              (length (IBMQ.backends provider))
              (report_row provider ([] ++ IBMQ.backends provider))).
    rewrite rows_loop.
    - now rewrite <- !app_assoc.
    - intros b Hb. apply get_backend_unique; [assumption|].
      unfold IBMQ.backends in Hb. now apply filter_In in Hb. }
  rewrite E. cbn [snd]. split; [reflexivity|]. split.
  - rewrite length_app. cbn [length]. rewrite length_map. lia.
  - intros n b Hn.
    rewrite nth_error_app2 by lia.
    replace (length out + 2 + n - length out) with (S (S n)) by lia.
    cbn [nth_error]. rewrite nth_error_map, Hn. reflexivity.
Qed.

Lemma status_report_rows_witness :
  status_report recorded_provider [] = (inr tt, recorded_output).
Proof.
  refine (proj1 (status_report_rows recorded_provider [] _)).
  repeat constructor; cbn; intuition discriminate.
Defined.

(* ------------------------------------------------------------------ *)
(** ** Boltzmann weights, in exact arithmetic

    What the cell computes when no rounding takes place: the normalised
    weights sum to 1 at every temperature, and they tend to the uniform
    distribution 1/100 as the temperature grows.  The rounding of
    [np.exp], of the sum and of the division on float64 is outside this
    model. *)

Section Boltzmann.
Local Open Scope R_scope.

Lemma sum_from (l : list R) (a : R) : fold_left Rplus l a = a + np.sum l.
Proof.
  unfold np.sum. cbn [add zero R_dtype].
  revert a. induction l as [|x l IH]; intros a; cbn [fold_left].
  - ring.
  - rewrite (IH (a + x)), (IH (0 + x)). ring.
Qed.

Lemma sum_cons (x : R) (l : list R) : np.sum (x :: l) = x + np.sum l.
Proof. unfold np.sum at 1. cbn [fold_left add zero R_dtype]. rewrite sum_from. ring. Qed.

Lemma sum_nil : np.sum (A := R) [] = 0.
Proof. reflexivity. Qed.

Lemma sum_map_div (l : list R) (z : R) :
  np.sum (map (fun p => p / z) l) = np.sum l / z.
Proof.
  induction l as [|x l IH]; cbn [map].
  - rewrite sum_nil. unfold Rdiv. ring.
  - rewrite !sum_cons, IH. unfold Rdiv. ring.
Qed.

Lemma sum_bounds (l : list R) (lo hi : R) :
  (forall x, In x l -> lo <= x <= hi) ->
  INR (length l) * lo <= np.sum l <= INR (length l) * hi.
Proof.
  induction l as [|x l IH]; intros Hb.
  - rewrite sum_nil. cbn. lra.
  - rewrite sum_cons. cbn [length]. rewrite S_INR.
    assert (Hx := Hb x (or_introl eq_refl)).
    assert (Hl := IH (fun y Hy => Hb y (or_intror Hy))).
    lra.
Qed.

Lemma energies_range (E : R) : In E energies -> 0 <= E <= 20.
Proof.
  unfold energies, linspace. intros H. apply in_map_iff in H.
  destruct H as (i & <- & Hi). apply in_seq in Hi.
  destruct (Nat.eqb i (100 - 1)); [lra|].
  assert (0 <= INR i <= 99).
  { split; [apply pos_INR|]. replace 99 with (INR 99) by (cbn; lra). apply le_INR. lia. }
  replace (INR (100 - 1)) with 99 by (cbn; lra).
  lra.
Qed.

Lemma energies_length : length energies = 100%nat.
Proof. unfold energies, linspace. now rewrite length_map, length_seq. Qed.

Lemma sum_nonneg (l : list R) :
  (forall x, In x l -> 0 <= x) -> 0 <= np.sum l.
Proof.
  induction l as [|x l IH]; intros Hb.
  - rewrite sum_nil. lra.
  - rewrite sum_cons.
    assert (Hx := Hb x (or_introl eq_refl)).
    assert (Hl := IH (fun y Hy => Hb y (or_intror Hy))).
    lra.
Qed.

Lemma weights_sum_pos (es : list R) (T : R) :
  es <> [] -> 0 < np.sum (weights es T).
Proof.
  destruct es as [|E es]; [contradiction|]. intros _.
  unfold weights. cbn [map]. rewrite sum_cons.
  pose proof (exp_pos (- E / T)) as HE.
  assert (0 <= np.sum (map (fun E0 : R => exp (- E0 / T)) es)); [|lra].
  apply sum_nonneg. intros x Hx. apply in_map_iff in Hx.
  destruct Hx as (E' & <- & _). left. apply exp_pos.
Qed.

(** In exact arithmetic the normalised weights sum to 1, on every
    nonempty grid and at every temperature. *)
Lemma boltzmann_sum_one (es : list R) (T : R) :
  es <> [] -> np.sum (boltzmann es T) = 1.
Proof.
  intros Hne. unfold boltzmann. rewrite sum_map_div.
  apply Rdiv_diag. pose proof (weights_sum_pos es T Hne) as H. lra.
Qed.

(** The probabilities are positive. *)
Lemma boltzmann_pos (es : list R) (T p : R) :
  In p (boltzmann es T) -> 0 < p.
Proof.
  unfold boltzmann. intros Hp. apply in_map_iff in Hp.
  destruct Hp as (w & <- & Hw).
  assert (Hne : es <> []) by (intros ->; exact Hw).
  pose proof (weights_sum_pos es T Hne) as HZ.
  unfold weights in Hw. apply in_map_iff in Hw. destruct Hw as (E & <- & _).
  apply Rdiv_lt_0_compat; [apply exp_pos|exact HZ].
Qed.

(** At the three temperatures of the notebook, on its grid of 100
    energies. *)
Lemma boltzmann_notebook :
  Forall (fun T => length (boltzmann energies T) = 100%nat /\
                   np.sum (boltzmann energies T) = 1)
         temperatures.
Proof.
  assert (Hne : energies <> []).
  { intros E. pose proof energies_length as Hl. rewrite E in Hl. discriminate. }
  unfold temperatures. repeat constructor;
    try (unfold boltzmann, weights; rewrite !length_map; exact energies_length);
    now apply boltzmann_sum_one.
Qed.

Lemma weight_range (E Emax T : R) :
  0 < T -> 0 <= E <= Emax -> exp (- Emax / T) <= exp (- E / T) <= 1.
Proof.
  intros HT HE.
  assert (Hi : 0 < / T) by now apply Rinv_0_lt_compat.
  split.
  - destruct (Req_dec E Emax) as [->|Hne]; [lra|].
    left. apply exp_increasing. unfold Rdiv. nra.
  - rewrite <- exp_0. destruct (Req_dec E 0) as [->|Hne].
    + unfold Rdiv. rewrite Ropp_0, Rmult_0_l. lra.
    + left. apply exp_increasing. unfold Rdiv. nra.
Qed.

(** X16: as the temperature grows the distribution tends to the uniform
    one: every probability is within [eps] of 1/100 once T exceeds
    20 / ln (1 + 100 eps).  (Exact real arithmetic.) *)
Lemma boltzmann_uniform_limit (eps : R) :
  0 < eps ->
  exists M, 0 < M /\ forall T, M < T ->
    forall p, In p (boltzmann energies T) -> Rabs (p - 1 / 100) < eps.
Proof.
  intros Heps.
  assert (Hl : 0 < ln (1 + 100 * eps)).
  { rewrite <- ln_1. apply ln_increasing; lra. }
  exists (20 / ln (1 + 100 * eps)). split.
  { apply Rdiv_lt_0_compat; lra. }
  intros T HT p Hp.
  assert (HT0 : 0 < T).
  { eapply Rlt_trans; [|exact HT]. apply Rdiv_lt_0_compat; lra. }
  set (e := exp (Ropp 20 / T)).
  assert (He : / (1 + 100 * eps) < e).
  { unfold e. rewrite <- (exp_ln (1 + 100 * eps)) at 1 by lra.
    rewrite <- exp_Ropp. apply exp_increasing.
    apply (Rmult_lt_reg_r T); [exact HT0|].
    unfold Rdiv. rewrite Rmult_assoc, Rinv_l by lra.
    apply (Rmult_lt_compat_r (ln (1 + 100 * eps))) in HT; [|exact Hl].
    unfold Rdiv in HT. rewrite Rmult_assoc, Rinv_l in HT by lra. lra. }
  assert (He1 : e <= 1).
  { unfold e. apply (weight_range 20 20 T HT0). lra. }
  assert (Hinv : 0 < / (1 + 100 * eps)) by (apply Rinv_0_lt_compat; lra).
  unfold boltzmann, weights in Hp. apply in_map_iff in Hp.
  destruct Hp as (w & <- & Hw).
  set (Z := np.sum (map (fun E => exp (- E / T)) energies)) in *.
  assert (HZ : 100 * e <= Z <= 100).
  { pose proof (sum_bounds (map (fun E => exp (- E / T)) energies) e 1) as Hb.
    rewrite length_map, energies_length in Hb.
    replace (INR 100) with 100 in Hb by (cbn; lra).
    rewrite Rmult_1_r in Hb. apply Hb.
    intros x Hx. apply in_map_iff in Hx. destruct Hx as (E & <- & HE).
    apply weight_range; [exact HT0|]. now apply energies_range. }
  assert (Hw' : e <= w <= 1).
  { apply in_map_iff in Hw. destruct Hw as (E & <- & HE).
    apply weight_range; [exact HT0|]. now apply energies_range. }
  assert (HZ0 : 0 < Z) by lra.
  assert (He0 : 0 < e) by apply exp_pos.
  assert (HiZ : / 100 <= / Z <= / (100 * e)).
  { split; apply Rinv_le_contravar; lra. }
  assert (Hlo : e / 100 <= w / Z) by (unfold Rdiv; nra).
  assert (Hhi : w / Z <= / (100 * e)) by (unfold Rdiv; nra).
  assert (Hie : / (100 * e) < (1 + 100 * eps) / 100).
  { rewrite Rinv_mult. 
    assert (/ e < 1 + 100 * eps).
    { rewrite <- (Rinv_inv (1 + 100 * eps)). apply Rinv_lt_contravar; [|exact He].
      apply Rmult_lt_0_compat; lra. }
    lra. }
  assert (Hee : (1 - 100 * eps) / 100 < e / 100).
  { assert (1 - 100 * eps < / (1 + 100 * eps)); [|lra].
    apply (Rmult_lt_reg_r (1 + 100 * eps)); [lra|].
    rewrite Rinv_l by lra. nra. }
  apply Rabs_def1; lra.
Qed.

End Boltzmann.

(* ------------------------------------------------------------------ *)
(** ** The layout of a row *)

Lemma string_length_append (s1 s2 : string) :
  String.length (s1 ++ s2) = String.length s1 + String.length s2.
Proof. induction s1 as [|a s1 IH]; cbn; [reflexivity|now rewrite IH]. Qed.

Lemma string_append_assoc (s1 s2 s3 : string) :
  ((s1 ++ s2) ++ s3 = s1 ++ (s2 ++ s3))%string.
Proof. induction s1 as [|a s1 IH]; cbn; [reflexivity|now rewrite IH]. Qed.

Lemma string_append_empty (s : string) : (s ++ "")%string = s.
Proof. induction s as [|a s IH]; cbn; [reflexivity|now rewrite IH]. Qed.

Lemma length_spaces (n : nat) :
  String.length (string_of_list_ascii (repeat " "%char n)) = n.
Proof. induction n as [|n IH]; cbn; [reflexivity|now rewrite IH]. Qed.

Lemma ljust_length (s : string) (width : nat) :
  String.length (ljust s width) = Nat.max width (String.length s).
Proof. unfold ljust. rewrite string_length_append, length_spaces. lia. Qed.

Lemma ljust_fits (s : string) (width : nat) :
  String.length s <= width -> String.length (ljust s width) = width.
Proof. intros Hs. rewrite ljust_length. lia. Qed.

Lemma substring_prefix (s1 s2 : string) :
  substring 0 (String.length s1) (s1 ++ s2) = s1.
Proof.
  induction s1 as [|a s1 IH]; cbn.
  - now destruct s2.
  - now rewrite IH.
Qed.

Lemma substring_skip (s1 s2 : string) (m : nat) :
  substring (String.length s1) m (s1 ++ s2) = substring 0 m s2.
Proof. induction s1 as [|a s1 IH]; cbn; [reflexivity|exact IH]. Qed.

(** A padded field is read back at the column where the text on its left
    ends. *)
Lemma field_at (l s rest : string) (width : nat) :
  substring (String.length l) (String.length s) (l ++ ljust s width ++ rest)
  = s.
Proof.
  rewrite substring_skip. unfold ljust. rewrite string_append_assoc.
  apply substring_prefix.
Qed.

Lemma format_row_length (a b c : string) :
  String.length (format_row a b c)
  = Nat.max 20 (String.length a) + Nat.max 10 (String.length b)
    + Nat.max 10 (String.length c) + 2.
Proof.
  unfold format_row. rewrite !string_length_append, !ljust_length.
  change (String.length " ") with 1. lia.
Qed.

(** X2: the format string pads, it never truncates.  A row is
    max(20, |a|) + 1 + max(10, |b|) + 1 + max(10, |c|) characters long and
    starts with the whole first field: a backend name of more than 20
    characters is printed in full and moves the two numbers to the
    right. *)
Theorem format_row_never_truncates (a b c : string) :
  String.length (format_row a b c)
  = Nat.max 20 (String.length a) + Nat.max 10 (String.length b)
    + Nat.max 10 (String.length c) + 2
  /\ substring 0 (String.length a) (format_row a b c) = a.
Proof.
  split; [apply format_row_length|].
  unfold format_row. apply (field_at "" a).
Qed.

(** X3: the table has fixed columns.  When the name of a backend has at
    most 20 characters and its two numbers at most 10 digits each, its
    row is 42 characters long, and the name, the number of qubits and
    the number of pending jobs are read back at the columns 0, 21
    and 32. *)
Theorem row_columns (b : IBMQ.Backend) :
  String.length (IBMQ.name b) <= 20 ->
  String.length (str_int (IBMQ.n_qubits b)) <= 10 ->
  String.length (str_int (IBMQ.pending_jobs b)) <= 10 ->
  String.length (row b) = 42 /\
  substring 0 (String.length (IBMQ.name b)) (row b) = IBMQ.name b /\
  substring 21 (String.length (str_int (IBMQ.n_qubits b))) (row b)
  = str_int (IBMQ.n_qubits b) /\
  substring 32 (String.length (str_int (IBMQ.pending_jobs b))) (row b)
  = str_int (IBMQ.pending_jobs b).
Proof.
  unfold row.
  generalize (IBMQ.name b) (str_int (IBMQ.n_qubits b))
             (str_int (IBMQ.pending_jobs b)).
  intros a q p Ha Hq Hp. repeat split.
  - rewrite format_row_length. lia.
  - unfold format_row. apply (field_at "" a).
  - unfold format_row.
    pose proof (field_at (ljust a 20 ++ " ") q (" " ++ ljust p 10) 10) as F.
    rewrite string_length_append, ljust_fits in F by exact Ha.
    rewrite string_append_assoc in F. exact F.
  - unfold format_row.
    pose proof (field_at (ljust a 20 ++ " " ++ ljust q 10 ++ " ") p "" 10)
      as F.
    rewrite !string_length_append, !ljust_fits in F by assumption.
    rewrite !string_append_assoc, string_append_empty in F. exact F.
Qed.

Lemma row_columns_witness :
  String.length (row (nth 2 recorded_provider
                          (IBMQ.Build_Backend "" 0 0 false))) = 42 /\
  substring 0 17 (row (nth 2 recorded_provider
                           (IBMQ.Build_Backend "" 0 0 false)))
  = "ibmq_16_melbourne"%string /\
  substring 21 2 (row (nth 2 recorded_provider
                           (IBMQ.Build_Backend "" 0 0 false)))
  = "14"%string /\
  substring 32 1 (row (nth 2 recorded_provider
                           (IBMQ.Build_Backend "" 0 0 false)))
  = "2"%string.
Proof.
  apply (row_columns (nth 2 recorded_provider
                          (IBMQ.Build_Backend "" 0 0 false)));
    vm_compute; lia.
Defined.

(* ------------------------------------------------------------------ *)
(** ** The shapes [mixed_state] accepts *)

Section Shapes.
Context {A : Type} `{Inexact A}.

Lemma nrows_fromfunction (r c : nat) (f : nat -> nat -> A) :
  np.nrows (np.fromfunction r c f) = r.
Proof.
  unfold np.nrows, np.fromfunction. now rewrite length_map, length_seq.
Qed.

Lemma ncols_fromfunction (r c : nat) (f : nat -> nat -> A) :
  1 <= r -> np.ncols (np.fromfunction r c f) = c.
Proof.
  intros Hr. unfold np.ncols, np.fromfunction.
  destruct r as [|r]; [lia|]. cbn. now rewrite length_map, length_seq.
Qed.

Lemma rectangular_fromfunction (r c : nat) (f : nat -> nat -> A) :
  np.rectangular (np.fromfunction r c f) = true.
Proof.
  unfold np.rectangular. apply forallb_forall. intros row Hrow.
  destruct r as [|r]; [contradiction|].
  rewrite ncols_fromfunction by lia.
  unfold np.fromfunction in Hrow. apply in_map_iff in Hrow as (i & <- & _).
  rewrite length_map, length_seq. apply Nat.eqb_refl.
Qed.

Lemma shape_map_map (f : A -> A) (a : np.ndarray A) :
  np.shape (map (map f) a) = np.shape a.
Proof.
  unfold np.shape, np.nrows, np.ncols. rewrite length_map.
  destruct a as [|r a]; cbn; [reflexivity|now rewrite length_map].
Qed.

Lemma nrows_scalar_multiply (s : A) (a : np.ndarray A) :
  np.nrows (np.scalar_multiply s a) = np.nrows a.
Proof. exact (f_equal fst (shape_map_map (multiply s) a)). Qed.

Lemma ncols_scalar_multiply (s : A) (a : np.ndarray A) :
  np.ncols (np.scalar_multiply s a) = np.ncols a.
Proof. exact (f_equal snd (shape_map_map (multiply s) a)). Qed.

Lemma shape_T (a : np.ndarray A) :
  1 <= np.ncols a -> np.shape (np.T a) = (np.ncols a, np.nrows a).
Proof.
  intros Hc. unfold np.T, np.shape.
  now rewrite nrows_fromfunction, ncols_fromfunction.
Qed.

(** Aligned shapes: (r, k) times (k, c) is (r, c). *)
Lemma dot_shape (a b : np.ndarray A) :
  np.ncols a = np.nrows b -> 1 <= np.nrows a -> 1 <= np.ncols b ->
  exists m, np.dot a b = Some m /\ np.shape m = (np.nrows a, np.ncols b).
Proof.
  intros Hab Ha Hb. unfold np.dot. rewrite Hab, Nat.eqb_refl.
  eexists. split; [reflexivity|].
  pose proof (shape_T b Hb) as Ht. injection Ht as Htr _.
  unfold np.shape. f_equal.
  - unfold np.nrows. now rewrite length_map.
  - unfold np.ncols at 1. unfold np.nrows in Ha.
    destruct a as [|a0 a]; [cbn in Ha; lia|].
    cbn [map hd]. rewrite length_map. exact Htr.
Qed.

(** X4: [mixed_state] does not check the length of the state.  Given an
    array of shape (r, c) with r, c >= 1, the outer product is r x r and
    is added to the 4 x 4 matrix I/4 under numpy's broadcasting: the call
    raises (ValueError) exactly when r is neither 4 nor 1, and whatever
    it returns is a 4 x 4 matrix.  In particular a state of 2 or 8
    entries is refused, but a single row or a single number is not. *)
Theorem mixed_state_shape (psi : np.ndarray A) (v : A) (r c : nat) :
  np.shape psi = (r, c) -> 1 <= c ->
  (mixed_state psi v = None <-> r <> 1 /\ r <> 4) /\
  (forall m, mixed_state psi v = Some m ->
             np.shape m = (4, 4) /\ np.rectangular m = true).
Proof.
  intros Hs Hc. injection Hs as Hr Hcols.
  assert (Hr1 : 1 <= r).
  { unfold np.nrows, np.ncols in *. destruct psi; cbn in *; lia. }
  assert (Hb : np.shape (np.conj (np.T psi)) = (c, r)).
  { unfold np.conj. rewrite shape_map_map, shape_T by lia. congruence. }
  injection Hb as Hbr Hbc.
  destruct (dot_shape psi (np.conj (np.T psi))) as (dm & Hdot & Hdm);
    try lia.
  rewrite Hr, Hbc in Hdm. injection Hdm as Hdr Hdc.
  unfold mixed_state. rewrite Hdot. cbv zeta.
  unfold np.array_add.
  rewrite !nrows_scalar_multiply, !ncols_scalar_multiply, Hdr, Hdc.
  change (np.nrows (np.divide_scalar (np.eye 4) (of_int (2 ^ 2)))) with 4.
  change (np.ncols (np.divide_scalar (np.eye 4) (of_int (2 ^ 2)))) with 4.
  unfold np.broadcast_axis.
  destruct (Nat.eqb_spec r 4) as [->|N4].
  - cbv beta iota. split; [split; [discriminate|lia]|].
    intros m [= <-]. unfold np.shape.
    now rewrite nrows_fromfunction, ncols_fromfunction,
      rectangular_fromfunction by lia.
  - destruct (Nat.eqb_spec r 1) as [->|N1].
    + cbv beta iota. split; [split; [discriminate|lia]|].
      intros m [= <-]. unfold np.shape.
      now rewrite nrows_fromfunction, ncols_fromfunction,
        rectangular_fromfunction by lia.
    + cbv beta iota. split; [split; [auto|reflexivity]|discriminate].
Qed.

Lemma map_nth_range {B : Type} (l : list A) (d : A) (f : A -> B) :
  map (fun i => f (nth i l d)) (seq 0 (length l)) = map f l.
Proof.
  induction l as [|a l IH]; [reflexivity|].
  cbn [length seq map nth]. f_equal.
  rewrite <- seq_shift, map_map. exact IH.
Qed.

(** The transpose of a row is the column of its entries, and back. *)
Lemma T_row (l : list A) : np.T [l] = map (fun x => [x]) l.
Proof.
  unfold np.T, np.fromfunction. change (np.ncols [l]) with (length l).
  change (np.nrows [l]) with 1. cbn [seq map].
  exact (map_nth_range l zero (fun x => [x])).
Qed.

Lemma T_column (l : list A) :
  l <> [] -> np.T (map (fun x => [x]) l) = [l].
Proof.
  intros Hl. unfold np.T, np.fromfunction, np.nrows, np.ncols.
  rewrite length_map.
  assert (E : length (hd [] (map (fun x => [x]) l)) = 1)
    by (destruct l; [congruence|reflexivity]).
  rewrite E. cbn [seq map]. f_equal.
  transitivity (map (fun x => x) l); [|apply map_id].
  rewrite <- (map_nth_range l zero (fun x => x)).
  apply map_ext_in. intros i Hi. apply in_seq in Hi. unfold np.item.
  rewrite (nth_indep _ [] [zero]) by (rewrite length_map; lia).
  now rewrite (map_nth (fun x => [x])).
Qed.

Lemma dagger_row (l : list A) :
  l <> [] -> np.T (np.conj (np.T [l])) = [map conjugate l].
Proof.
  intros Hl. rewrite T_row. unfold np.conj. rewrite map_map. cbn [map].
  rewrite <- (map_map conjugate (fun x => [x])).
  apply T_column. destruct l; [congruence|discriminate].
Qed.

(** For a row vector [psi.dot(psi.T.conj())] is one number, the inner
    product of the row with its conjugate, and [mixed_state] broadcasts
    it: whatever number [d] the product is, v d is added to every entry
    of (1 - v) I/4. *)
Lemma dot_dagger_row (l : list A) :
  l <> [] ->
  np.dot [l] (np.conj (np.T [l])) = Some [[np.inner l (map conjugate l)]].
Proof.
  intros Hl. unfold np.dot.
  assert (Hal : np.ncols [l] = np.nrows (np.conj (np.T [l]))).
  { rewrite T_row. unfold np.conj, np.nrows. now rewrite !length_map. }
  rewrite Hal, Nat.eqb_refl, dagger_row by exact Hl.
  reflexivity.
Qed.

Lemma mixed_state_row_broadcast (l : list A) (v d : A) :
  np.dot [l] (np.conj (np.T [l])) = Some [[d]] ->
  mixed_state [l] v
  = Some (np.fromfunction 4 4
            (fun i j =>
               add (multiply v d)
                   (multiply (subtract (of_int 1) v)
                      (true_divide (if Nat.eqb i j then one else zero)
                                   (of_int 4))))).
Proof. intros Hd. unfold mixed_state. rewrite Hd. reflexivity. Qed.
End Shapes.

Lemma mixed_state_shape_witness :
  (mixed_state (A := float64) [[1]; [0]]%float v_0_8 = None
   <-> 2 <> 1 /\ 2 <> 4) /\
  (forall m, mixed_state (A := float64) [[1]; [0]]%float v_0_8 = Some m ->
             np.shape m = (4, 4) /\ np.rectangular m = true).
Proof.
  apply (mixed_state_shape (A := float64) [[1]; [0]]%float v_0_8 2 1).
  - reflexivity.
  - lia.
Defined.

(** X5: given a row vector (shape (1, n)) where a column is meant,
    [mixed_state] raises nothing.  In exact complex arithmetic, for
    every nonempty row [l] and every [v], [psi.dot(psi.T.conj())] is
    the 1 x 1 inner product of the row with its conjugate, which numpy
    broadcasts: v times that number is added to every entry of
    (1 - v) I/4, the off-diagonal ones included. *)
Theorem mixed_state_row_vector (l : list (complex R)) (v : complex R) :
  l <> [] ->
  mixed_state [l] v
  = Some (np.fromfunction 4 4
            (fun i j =>
               add (multiply v (np.inner l (map conjugate l)))
                   (multiply (subtract (of_int 1) v)
                      (true_divide (if Nat.eqb i j then one else zero)
                                   (of_int 4))))).
Proof.
  intros Hl. apply mixed_state_row_broadcast. now apply dot_dagger_row.
Qed.

Lemma mixed_state_row_vector_witness :
  mixed_state (A := complex R) [[(1 / 10, 0); (3 / 10, 0)]]%R one
  = Some (np.fromfunction 4 4
            (fun i j =>
               add (multiply one
                      (np.inner [(1 / 10, 0); (3 / 10, 0)]%R
                         (map conjugate [(1 / 10, 0); (3 / 10, 0)]%R)))
                   (multiply (subtract (of_int 1) one)
                      (true_divide (if Nat.eqb i j then one else zero)
                                   (of_int 4))))).
Proof.
  apply (mixed_state_row_vector [(1 / 10, 0); (3 / 10, 0)]%R one).
  discriminate.
Defined.

(* ------------------------------------------------------------------ *)
(** ** What [mixed_state] does not see: sign and phase *)

(** A map of the entries that keeps every product x * conj y keeps the
    mixed state. *)
Lemma mixed_state_invariant {A : Type} `{Inexact A} (f : A -> A)
  (a b c d v : A) :
  (forall x y : A,
      multiply (f x) (conjugate (f y)) = multiply x (conjugate y)) ->
  mixed_state (map (map f) [[a]; [b]; [c]; [d]]) v
  = mixed_state [[a]; [b]; [c]; [d]] v.
Proof. intros Hf. unfold_arrays. rewrite !Hf. reflexivity. Qed.

Lemma SF64mul_opp_opp (x y : spec_float) :
  SF64mul (SFopp x) (SFopp y) = SF64mul x y.
Proof.
  destruct x as [sx|sx| |sx mx ex], y as [sy|sy| |sy my ey];
    unfold SF64mul, SFmul, SFopp;
    try reflexivity;
    now destruct sx, sy.
Qed.

Lemma float_mul_opp_opp (x y : float64) :
  PrimFloat.mul (PrimFloat.opp x) (PrimFloat.opp y) = PrimFloat.mul x y.
Proof.
  apply Prim2SF_inj. rewrite !mul_spec, !opp_spec. apply SF64mul_opp_opp.
Qed.

Lemma same_float_refl (x : float64) : same_float x x.
Proof. unfold same_float. now destruct (isnan x). Qed.

Lemma array_same_refl (a : np.ndarray float64) : array_same a a.
Proof.
  unfold array_same. induction a as [|r a IH]; constructor; [|exact IH].
  induction r as [|x r IHr]; constructor; [apply same_float_refl|exact IHr].
Qed.

Lemma mixed_state_opp (a b c d v : float64) :
  mixed_state (map (map PrimFloat.opp) [[a]; [b]; [c]; [d]]) v
  = mixed_state [[a]; [b]; [c]; [d]] v.
Proof.
  apply (mixed_state_invariant (A := float64) PrimFloat.opp).
  intros x y. apply float_mul_opp_opp.
Qed.

(** X6: the sign of the state does not show in the result.  On float64,
    for every column [psi] of four floats and every float [v],
    [mixed_state(-psi, v)] and [mixed_state(psi, v)] are two 4 x 4
    matrices that agree entry by entry: where one entry is NaN so is the
    other, and every other entry, zeros and infinities included, is the
    same float bit for bit.  (Nothing is said about the sign bit or the
    payload of a NaN.) *)
Theorem mixed_state_sign_flip (psi : np.ndarray float64) (v : float64) :
  column4 psi ->
  exists m m',
    mixed_state (map (map PrimFloat.opp) psi) v = Some m /\
    mixed_state psi v = Some m' /\
    array_same m m'.
Proof.
  intros Hc. destruct (column4_inv psi Hc) as (a & b & c & d & ->).
  rewrite mixed_state_opp.
  destruct (mixed_state_column_float a b c d v) as (m & Em & _).
  exists m, m. repeat split; try exact Em. apply array_same_refl.
Qed.

Lemma mixed_state_sign_flip_witness :
  exists m m',
    mixed_state (A := float64) (map (map PrimFloat.opp) huge_state) 0%float
    = Some m /\
    mixed_state huge_state 0%float = Some m' /\
    array_same m m'.
Proof. apply mixed_state_sign_flip. split; reflexivity. Defined.

Lemma phase_product (c x y : complex R) :
  multiply c (conjugate c) = one ->
  multiply (multiply c x) (conjugate (multiply c y))
  = multiply x (conjugate y).
Proof.
  destruct c as [cr ci], x as [xr xi], y as [yr yi].
  cbn. unfold cmultiply, cconjugate, of_real. cbn.
  intros E. injection E as Er _.
  f_equal.
  - transitivity ((cr * cr - ci * - ci) * (xr * yr - xi * - yi))%R; [ring|].
    rewrite Er. ring.
  - transitivity ((cr * cr - ci * - ci) * (xr * - yi + xi * yr))%R; [ring|].
    rewrite Er. ring.
Qed.

(** X7: in exact complex arithmetic, a global phase of the state does not
    change the result: for every complex [c] of modulus 1, every column
    [psi] of four entries and every [v],
    [mixed_state(c * psi, v) = mixed_state(psi, v)]. *)
Theorem mixed_state_global_phase
  (psi : np.ndarray (complex R)) (c v : complex R) :
  column4 psi -> multiply c (conjugate c) = one ->
  mixed_state (np.scalar_multiply c psi) v = mixed_state psi v.
Proof.
  intros Hc Hu. destruct (column4_inv psi Hc) as (a & b & c' & d & ->).
  apply (mixed_state_invariant (A := complex R) (multiply c)).
  intros x y. now apply phase_product.
Qed.

Lemma mixed_state_global_phase_witness :
  mixed_state (A := complex R)
    (np.scalar_multiply (0, 1)%R [[one]; [zero]; [zero]; [one]])
    (of_real (4 / 5)%R)
  = mixed_state [[one]; [zero]; [zero]; [one]] (of_real (4 / 5)%R).
Proof.
  apply mixed_state_global_phase.
  - apply column4_intro.
  - cbn. unfold cmultiply, cconjugate, of_real. cbn. f_equal; ring.
Defined.

(* ------------------------------------------------------------------ *)
(** ** States that are not normalised, visibilities outside [0, 1] *)

(** psi^dagger psi, the squared norm of a column of four complex
    numbers. *)
Lemma dagger_dot_exact (a b c d : complex R) :
  np.dot (np.conj (np.T [[a]; [b]; [c]; [d]])) [[a]; [b]; [c]; [d]]
  = Some [[of_real (real a ^ 2 + imag a ^ 2 + real b ^ 2 + imag b ^ 2
                    + real c ^ 2 + imag c ^ 2 + real d ^ 2 + imag d ^ 2)%R]].
Proof.
  destruct a as [ar ai], b as [br bi], c as [cr ci], d as [dr di].
  compute_arrays. do 4 f_equal; ring.
Qed.

Lemma mixed_state_trace_exact (a b c d : complex R) (v : R) :
  exists m, mixed_state [[a]; [b]; [c]; [d]] (of_real v) = Some m /\
    np.trace m
    = of_real (v * (real a ^ 2 + imag a ^ 2 + real b ^ 2 + imag b ^ 2
                    + real c ^ 2 + imag c ^ 2 + real d ^ 2 + imag d ^ 2)
               + (1 - v))%R.
Proof.
  eexists. split; [reflexivity|].
  destruct a as [ar ai], b as [br bi], c as [cr ci], d as [dr di].
  compute_arrays. f_equal; field.
Qed.

Lemma of_real_inj (x y : R) : of_real (A := R) x = of_real y -> x = y.
Proof. intros E. now injection E. Qed.

(** X8: [mixed_state] does not normalise the state.  In exact complex
    arithmetic, for every column [psi] of four entries with squared norm
    n = psi^dagger psi and every real [v], the trace of the result is
    v n + (1 - v): it is 1 only if v = 0 or [psi] is a unit vector. *)
Theorem mixed_state_trace_unnormalised
  (psi : np.ndarray (complex R)) (v : R) :
  column4 psi ->
  exists m n,
    mixed_state psi (of_real v) = Some m /\
    np.dot (np.conj (np.T psi)) psi = Some [[of_real n]] /\
    np.trace m = of_real (v * n + (1 - v))%R /\
    (np.trace m = one <-> v = 0%R \/ unit_vector psi).
Proof.
  intros Hc. destruct (column4_inv psi Hc) as (a & b & c & d & ->).
  destruct (mixed_state_trace_exact a b c d v) as (m & Em & Et).
  pose proof (dagger_dot_exact a b c d) as En.
  set (n := (real a ^ 2 + imag a ^ 2 + real b ^ 2 + imag b ^ 2
             + real c ^ 2 + imag c ^ 2 + real d ^ 2 + imag d ^ 2)%R) in *.
  exists m, n. repeat (split; [assumption|]).
  unfold unit_vector. rewrite Et, En. split.
  - intros E. apply of_real_inj in E. cbv [one R_dtype] in E.
    assert (E0 : (v * (n - 1) = 0)%R) by lra.
    destruct (Rmult_integral _ _ E0) as [E1|E1]; [now left|right].
    replace n with 1%R by lra. reflexivity.
  - intros [->|E].
    + replace (0 * n + (1 - 0))%R with 1%R by ring. reflexivity.
    + injection E as E. cbv [one R_dtype] in E. rewrite E.
      replace (v * 1 + (1 - v))%R with 1%R by ring. reflexivity.
Qed.

Lemma mixed_state_trace_unnormalised_witness :
  exists m n,
    mixed_state (A := complex R) [[one]; [zero]; [zero]; [one]]
      (of_real (4 / 5)%R) = Some m /\
    np.dot (np.conj (np.T [[one]; [zero]; [zero]; [one]]))
      [[one]; [zero]; [zero]; [one]] = Some [[of_real n]] /\
    np.trace m = of_real (4 / 5 * n + (1 - 4 / 5))%R /\
    (np.trace m = one <->
     (4 / 5 = 0)%R \/
     unit_vector (A := complex R) [[one]; [zero]; [zero]; [one]]).
Proof.
  apply (mixed_state_trace_unnormalised [[one]; [zero]; [zero]; [one]]).
  apply column4_intro.
Defined.

(** Cauchy-Schwarz in C^4, from Lagrange's identity:
    |psi|^2 |x|^2 - |<psi,x>|^2 is the sum of the
    |psi_i x_j - psi_j x_i|^2. *)
Lemma cauchy_schwarz4
  (ar ai br bi cr ci dr di x0r x0i x1r x1i x2r x2i x3r x3i : R) :
  ((ar * x0r + ai * x0i + br * x1r + bi * x1i
    + cr * x2r + ci * x2i + dr * x3r + di * x3i) ^ 2
   + (ar * x0i - ai * x0r + br * x1i - bi * x1r
      + cr * x2i - ci * x2r + dr * x3i - di * x3r) ^ 2
   <= (ar ^ 2 + ai ^ 2 + br ^ 2 + bi ^ 2 + cr ^ 2 + ci ^ 2 + dr ^ 2 + di ^ 2)
      * (x0r ^ 2 + x0i ^ 2 + x1r ^ 2 + x1i ^ 2
         + x2r ^ 2 + x2i ^ 2 + x3r ^ 2 + x3i ^ 2))%R.
Proof.
  apply Rge_le, Rminus_ge, Rle_ge.
  match goal with
  | |- (0 <= ?E)%R =>
      replace E with
        (((ar * x1r - ai * x1i) - (br * x0r - bi * x0i)) ^ 2
         + ((ar * x1i + ai * x1r) - (br * x0i + bi * x0r)) ^ 2
         + ((ar * x2r - ai * x2i) - (cr * x0r - ci * x0i)) ^ 2
         + ((ar * x2i + ai * x2r) - (cr * x0i + ci * x0r)) ^ 2
         + ((ar * x3r - ai * x3i) - (dr * x0r - di * x0i)) ^ 2
         + ((ar * x3i + ai * x3r) - (dr * x0i + di * x0r)) ^ 2
         + ((br * x2r - bi * x2i) - (cr * x1r - ci * x1i)) ^ 2
         + ((br * x2i + bi * x2r) - (cr * x1i + ci * x1r)) ^ 2
         + ((br * x3r - bi * x3i) - (dr * x1r - di * x1i)) ^ 2
         + ((br * x3i + bi * x3r) - (dr * x1i + di * x1r)) ^ 2
         + ((cr * x3r - ci * x3i) - (dr * x2r - di * x2i)) ^ 2
         + ((cr * x3i + ci * x3r) - (dr * x2i + di * x2r)) ^ 2)%R
        by ring
  end.
  repeat apply Rplus_le_le_0_compat; apply pow2_ge_0.
Qed.

Lemma sum_squares_nonneg (a b c d e f g h : R) :
  (0 <= a ^ 2 + b ^ 2 + c ^ 2 + d ^ 2 + e ^ 2 + f ^ 2 + g ^ 2 + h ^ 2)%R.
Proof. repeat apply Rplus_le_le_0_compat; apply pow2_ge_0. Qed.

Lemma mixed_state_psd_iff (a b c d : complex R) (v : R) :
  unit_vector [[a]; [b]; [c]; [d]] ->
  exists m, mixed_state [[a]; [b]; [c]; [d]] (of_real v) = Some m /\
            (positive_semidefinite m <-> (-1 / 3 <= v <= 1)%R).
Proof.
  intros U. unfold unit_vector in U. rewrite dagger_dot_exact in U.
  injection U as U. cbv [one R_dtype] in U.
  destruct (mixed_state [[a]; [b]; [c]; [d]] (of_real v)) as [m|] eqn:Em;
    [|discriminate Em].
  exists m. split; [reflexivity|].
  destruct (mixed_state_rows _ _ _ Em) as (r0 & r1 & r2 & r3 & Hm).
  split.
  - intros Hpsd. split.
    + (* at x = psi the form is v + (1 - v) / 4 *)
      destruct (Hpsd [[a]; [b]; [c]; [d]]) as (q & Hq & Hq0).
      { rewrite Hm. split; reflexivity. }
      pose proof (mixed_state_quadratic_form a b c d a b c d v) as Q.
      rewrite Em, Hq in Q. injection Q as Q.
      destruct a as [ar ai], b as [br bi], c as [cr ci], d as [dr di].
      cbn [real imag fst snd] in *.
      set (n := (ar ^ 2 + ai ^ 2 + br ^ 2 + bi ^ 2
                 + cr ^ 2 + ci ^ 2 + dr ^ 2 + di ^ 2)%R) in *.
      assert (Eq : (q = v * n ^ 2 + (1 - v) / 4 * n)%R).
      { rewrite Q. unfold n. ring. }
      assert (U' : n = 1%R) by (unfold n; rewrite <- U; ring).
      rewrite U' in Eq. lra.
    + (* at a unit vector orthogonal to psi the form is (1 - v) / 4 *)
      destruct (Hpsd [[conjugate b]; [negative (conjugate a)];
                      [conjugate d]; [negative (conjugate c)]])
        as (q & Hq & Hq0).
      { rewrite Hm. split; reflexivity. }
      pose proof (mixed_state_quadratic_form a b c d
                    (conjugate b) (negative (conjugate a))
                    (conjugate d) (negative (conjugate c)) v) as Q.
      rewrite Em, Hq in Q. injection Q as Q.
      destruct a as [ar ai], b as [br bi], c as [cr ci], d as [dr di].
      cbn [real imag fst snd conjugate negative complex_dtype cconjugate
           cnegative R_dtype] in *.
      set (n := (ar ^ 2 + ai ^ 2 + br ^ 2 + bi ^ 2
                 + cr ^ 2 + ci ^ 2 + dr ^ 2 + di ^ 2)%R) in *.
      assert (Eq : (q = (1 - v) / 4 * n)%R).
      { rewrite Q. unfold n. ring. }
      assert (U' : n = 1%R) by (unfold n; rewrite <- U; ring).
      rewrite U' in Eq. lra.
  - intros Hv x Hx.
    assert (Hx4 : exists x0 x1 x2 x3, x = [[x0]; [x1]; [x2]; [x3]]).
    { rewrite Hm in Hx. revert Hx. apply column_for4_inv. }
    destruct Hx4 as (x0 & x1 & x2 & x3 & ->).
    pose proof (mixed_state_quadratic_form a b c d x0 x1 x2 x3 v) as Q.
    rewrite Em in Q. eexists. split; [exact Q|].
    destruct a as [ar ai], b as [br bi], c as [cr ci], d as [dr di].
    destruct x0 as [x0r x0i], x1 as [x1r x1i], x2 as [x2r x2i],
             x3 as [x3r x3i].
    cbn [real imag fst snd] in *.
    pose proof (cauchy_schwarz4 ar ai br bi cr ci dr di
                  x0r x0i x1r x1i x2r x2i x3r x3i) as CS.
    replace (ar ^ 2 + ai ^ 2 + br ^ 2 + bi ^ 2
             + cr ^ 2 + ci ^ 2 + dr ^ 2 + di ^ 2)%R with 1%R in CS
      by (rewrite <- U; ring).
    rewrite Rmult_1_l in CS.
    pose proof (sum_squares_nonneg x0r x0i x1r x1i x2r x2i x3r x3i) as N.
    set (n := (x0r ^ 2 + x0i ^ 2 + x1r ^ 2 + x1i ^ 2
               + x2r ^ 2 + x2i ^ 2 + x3r ^ 2 + x3i ^ 2)%R) in *.
    match type of CS with (?P <= _)%R => set (p := P) in * end.
    assert (P0 : (0 <= p)%R)
      by (unfold p; apply Rplus_le_le_0_compat; apply pow2_ge_0).
    destruct (Rle_lt_dec 0 v) as [V0|V0].
    + apply Rplus_le_le_0_compat; apply Rmult_le_pos; lra.
    + assert (v * n <= v * p)%R by nra.
      nra.
Qed.

(** X9: [mixed_state] does not check the visibility either.  In exact
    complex arithmetic, for a unit vector [psi] in C^4 and a real [v],
    the returned matrix is positive semidefinite exactly when
    -1/3 <= v <= 1: a visibility above 1 or below -1/3 gives a matrix
    that is no density matrix (at [psi] the quadratic form is
    (1 + 3 v) / 4, at a unit vector orthogonal to [psi] it is
    (1 - v) / 4), while the values between -1/3 and 0 still give one. *)
Theorem mixed_state_psd_range (psi : np.ndarray (complex R)) (v : R) :
  column4 psi -> unit_vector psi ->
  exists m, mixed_state psi (of_real v) = Some m /\
            (positive_semidefinite m <-> (-1 / 3 <= v <= 1)%R).
Proof.
  intros Hc U. destruct (column4_inv psi Hc) as (a & b & c & d & ->).
  now apply mixed_state_psd_iff.
Qed.

Lemma mixed_state_psd_range_witness :
  exists m, mixed_state (A := complex R) [[one]; [zero]; [zero]; [zero]]
              (of_real (6 / 5)%R) = Some m /\
            (positive_semidefinite m <-> (-1 / 3 <= 6 / 5 <= 1)%R).
Proof.
  apply mixed_state_psd_range.
  - apply column4_intro.
  - exact unit_vector_basis_exact.
Defined.

(* ------------------------------------------------------------------ *)
(** ** The bit-flip matrix on any integer array *)

Lemma wrap64_in_range (z : Z) : in_int64 z -> wrap64 z = z.
Proof.
  unfold in_int64, wrap64. intros Hz.
  rewrite Z.mod_small by lia. lia.
Qed.

Lemma X_row0 (x y : int64) : in_int64 y -> np.inner [0; 1]%Z [x; y] = y.
Proof.
  intros Hy.
  change (np.inner [0; 1]%Z [x; y])
    with (wrap64 (wrap64 (0 + wrap64 (0 * x)) + wrap64 (1 * y))).
  rewrite Z.mul_0_l, Z.mul_1_l.
  change (wrap64 (0 + wrap64 0)) with 0%Z.
  rewrite Z.add_0_l. now rewrite !(wrap64_in_range y Hy).
Qed.

Lemma X_row1 (x y : int64) : in_int64 x -> np.inner [1; 0]%Z [x; y] = x.
Proof.
  intros Hx.
  change (np.inner [1; 0]%Z [x; y])
    with (wrap64 (wrap64 (0 + wrap64 (1 * x)) + wrap64 (0 * y))).
  rewrite Z.mul_0_l, Z.mul_1_l.
  change (wrap64 0) with 0%Z.
  rewrite Z.add_0_l, Z.add_0_r. now rewrite !(wrap64_in_range x Hx).
Qed.

Lemma X_dot_two_rows (a b : list int64) :
  length b = length a -> Forall in_int64 a -> Forall in_int64 b ->
  np.dot X [a; b] = Some [b; a].
Proof.
  intros Hl Ha Hb. unfold np.dot.
  cbn [np.ncols np.nrows X hd length Nat.eqb].
  change (np.T [a; b])
    with (map (fun j => [nth j a 0%Z; nth j b 0%Z]) (seq 0 (length a))).
  unfold X. cbn [map].
  rewrite !map_map. do 2 f_equal; [|f_equal].
  - transitivity (map (fun x => x) b); [|apply map_id].
    rewrite <- (map_nth_range b 0%Z (fun x => x)), Hl.
    apply map_ext_in. intros j Hj. apply in_seq in Hj.
    apply X_row0. rewrite Forall_forall in Hb. apply Hb, nth_In. lia.
  - transitivity (map (fun x => x) a); [|apply map_id].
    rewrite <- (map_nth_range a 0%Z (fun x => x)).
    apply map_ext_in. intros j Hj. apply in_seq in Hj.
    apply X_row1. rewrite Forall_forall in Ha. apply Ha, nth_In. lia.
Qed.

Lemma two_rows_inv (m : np.ndarray int64) :
  np.nrows m = 2 -> np.rectangular m = true ->
  Forall (Forall in_int64) m ->
  exists r0 r1, m = [r0; r1] /\ length r1 = length r0 /\
                Forall in_int64 r0 /\ Forall in_int64 r1.
Proof.
  intros Hn Hr Hm.
  destruct m as [|r0 [|r1 [|? ?]]]; try discriminate Hn.
  exists r0, r1. split; [reflexivity|].
  unfold np.rectangular in Hr. cbn in Hr.
  rewrite Nat.eqb_refl, andb_true_r in Hr. apply Nat.eqb_eq in Hr.
  apply Forall_cons_iff in Hm as [F0 Hm].
  apply Forall_cons_iff in Hm as [F1 _]. auto.
Qed.

(** X10: [X.dot(m)] exchanges the two rows of every int64 array [m] with
    two rows, whatever their length, with no wrap-around; applied twice,
    [X] gives [m] back: the bit flip is its own inverse on every array,
    not only on the basis vector of the notebook. *)
Theorem X_dot_swaps_rows (m : np.ndarray int64) :
  np.nrows m = 2 -> np.rectangular m = true ->
  Forall (Forall in_int64) m ->
  exists r0 r1, m = [r0; r1] /\
    np.dot X m = Some [r1; r0] /\
    np.dot X [r1; r0] = Some m.
Proof.
  intros Hn Hr Hm.
  destruct (two_rows_inv m Hn Hr Hm) as (r0 & r1 & -> & Hl & F0 & F1).
  exists r0, r1. split; [reflexivity|].
  split; apply X_dot_two_rows; auto.
Qed.

Lemma X_dot_swaps_rows_witness :
  exists r0 r1, [[1; 2; 3]; [4; 5; 6]]%Z = [r0; r1] /\
    np.dot X [[1; 2; 3]; [4; 5; 6]]%Z = Some [r1; r0] /\
    np.dot X [r1; r0] = Some [[1; 2; 3]; [4; 5; 6]]%Z.
Proof.
  apply (X_dot_swaps_rows [[1; 2; 3]; [4; 5; 6]]%Z).
  - reflexivity.
  - reflexivity.
  - repeat constructor; unfold in_int64; lia.
Defined.

Lemma SF64add_comm (x y : spec_float) : SF64add x y = SF64add y x.
Proof.
  destruct x as [sx|sx| |sx mx ex], y as [sy|sy| |sy my ey];
    unfold SF64add, SFadd; try reflexivity;
    try (destruct sx, sy; reflexivity).
  rewrite (Z.min_comm ey ex), Z.add_comm. reflexivity.
Qed.

Lemma float_add_comm (x y : float64) : PrimFloat.add x y = PrimFloat.add y x.
Proof. apply Prim2SF_inj. rewrite !add_spec. apply SF64add_comm. Qed.

(** A square is never the negative zero. *)
Lemma float_square_sign (x : float64) :
  Prim2SF (PrimFloat.mul x x) <> S754_zero true.
Proof.
  rewrite mul_spec.
  destruct (Prim2SF x) as [s|s| |s m e]; unfold SF64mul, SFmul;
    rewrite ?xorb_nilpotent; try discriminate.
  unfold binary_round_aux.
  destruct (shr_fexp _ _ _ _ _) as [mrs' e'].
  destruct (shr_fexp _ _ _ _ _) as [mrs'' e''].
  destruct (shr_m mrs''); try discriminate.
  destruct (Z.leb _ _); discriminate.
Qed.

Lemma norm_two (a b : int64) :
  np.linalg_norm [[a]; [b]]
  = PrimFloat.sqrt
      (PrimFloat.add (PrimFloat.mul (float_of_int a) (float_of_int a))
                     (PrimFloat.mul (float_of_int b) (float_of_int b))).
Proof.
  change (np.linalg_norm [[a]; [b]])
    with (PrimFloat.sqrt
            (PrimFloat.add
               (PrimFloat.add 0%float
                  (PrimFloat.mul (float_of_int a) (float_of_int a)))
               (PrimFloat.mul (float_of_int b) (float_of_int b)))).
  now rewrite float_add_zero_l by apply float_square_sign.
Qed.

Lemma small_int_in_int64 (z : Z) : small_int z -> in_int64 z.
Proof. unfold small_int, in_int64. lia. Qed.

(** X11: the norm check holds beyond [zero_ket]: for every int64 column
    [v] of two entries of magnitude at most 2^26,
    [np.linalg.norm(X.dot(v))] is [np.linalg.norm(v)], the same float64
    bit for bit.  (Within this bound the two squares and their sum are
    exact in float64, so the order in which they are accumulated does
    not matter; beyond it the last bit can depend on that order.) *)
Theorem norm_preserved_by_X (v : np.ndarray int64) :
  np.shape v = (2, 1) -> np.rectangular v = true ->
  Forall (Forall small_int) v ->
  option_map np.linalg_norm (np.dot X v) = Some (np.linalg_norm v).
Proof.
  intros Hs Hr Hv. injection Hs as Hn Hc.
  assert (Hv' : Forall (Forall in_int64) v).
  { eapply Forall_impl; [|exact Hv]. intros r Hrow.
    eapply Forall_impl; [|exact Hrow]. exact small_int_in_int64. }
  destruct (two_rows_inv v Hn Hr Hv') as (r0 & r1 & -> & Hl & F0 & F1).
  rewrite X_dot_two_rows by assumption.
  cbn in Hc.
  destruct r0 as [|a [|? ?]]; try discriminate Hc.
  destruct r1 as [|b [|? ?]]; try discriminate Hl.
  cbn [option_map]. rewrite !norm_two. f_equal. f_equal.
  apply float_add_comm.
Qed.

Lemma norm_preserved_by_X_witness :
  option_map np.linalg_norm (np.dot X [[3]; [-4]]%Z)
  = Some (np.linalg_norm [[3]; [-4]]%Z).
Proof.
  apply norm_preserved_by_X.
  - reflexivity.
  - reflexivity.
  - repeat constructor; unfold small_int; lia.
Defined.

(* ------------------------------------------------------------------ *)
(** ** Circuits of X gates *)

Lemma x_gate_flips (bit : bool) :
  qiskit.apply_gate (qiskit.gate_matrix (qiskit.XGate 0)) 0 (ket bit)
  = ket (negb bit).
Proof. destruct bit; vm_compute; reflexivity. Qed.

Lemma x_gates_run (gates : list qiskit.Instruction) (bit : bool) :
  Forall (eq (qiskit.XGate 0)) gates ->
  fold_left (fun state g =>
               qiskit.apply_gate (qiskit.gate_matrix g) (qiskit.target g)
                                 state)
            gates (ket bit)
  = ket (xorb bit (Nat.odd (length gates))).
Proof.
  intros Hg. revert bit. induction Hg as [|g gates <- _ IH]; intros bit.
  - cbn. now rewrite xorb_false_r.
  - cbn [fold_left length qiskit.target]. rewrite x_gate_flips, IH.
    rewrite Nat.odd_succ, <- Nat.negb_odd.
    now destruct bit, (Nat.odd (length gates)).
Qed.

(** X12: the circuit of the notebook with any number of X gates in place
    of two.  On one qubit, with complex128 amplitudes, the simulated
    statevector is exactly [1, 0] after an even number of [circuit.x(q[0])]
    and exactly [0, 1] after an odd number: the gates cancel in pairs
    with no rounding. *)
Theorem x_gates_parity (c : qiskit.QuantumCircuit) :
  qiskit.num_qubits c = 1 ->
  Forall (eq (qiskit.XGate 0)) (qiskit.data c) ->
  qiskit.get_statevector c = ket (Nat.odd (length (qiskit.data c))).
Proof.
  intros Hq Hg. unfold qiskit.get_statevector. rewrite Hq.
  change (qiskit.initial_statevector 1) with (ket false).
  now rewrite x_gates_run.
Qed.

Lemma x_gates_parity_witness :
  option_map qiskit.get_statevector
    (match circuit with
     | Some c => qiskit.x 0 c
     | None => None
     end)
  = Some [(0, 0); (1, 0)]%float.
Proof.
  apply (f_equal Some
           (x_gates_parity
              {| qiskit.num_qubits := 1; qiskit.num_clbits := 1;
                 qiskit.data := [qiskit.XGate 0; qiskit.XGate 0;
                                 qiskit.XGate 0] |}
              eq_refl
              (Forall_cons _ eq_refl
                 (Forall_cons _ eq_refl
                    (Forall_cons _ eq_refl (Forall_nil _)))))).
Defined.

(* ------------------------------------------------------------------ *)
(** ** The Boltzmann curves, in exact arithmetic *)

Section BoltzmannCurves.
Local Open Scope R_scope.

Lemma sum_member (l : list R) (x : R) :
  (forall y, In y l -> 0 <= y) -> In x l -> x <= np.sum l.
Proof.
  induction l as [|a l IH]; intros Hl Hx; [contradiction|].
  rewrite sum_cons.
  assert (Ha := Hl a (or_introl eq_refl)).
  assert (Hs : 0 <= np.sum l)
    by (apply sum_nonneg; intros y Hy; apply Hl; now right).
  destruct Hx as [->|Hx]; [lra|].
  assert (x <= np.sum l)
    by (apply IH; [intros y Hy; apply Hl; now right|exact Hx]).
  lra.
Qed.

Lemma weights_nonneg (es : list R) (T : R) (w : R) :
  In w (weights es T) -> 0 <= w.
Proof.
  unfold weights. intros Hw. apply in_map_iff in Hw as (E & <- & _).
  left. apply exp_pos.
Qed.

Lemma energies_nonempty : energies <> [].
Proof.
  intros E. pose proof energies_length as Hl. rewrite E in Hl. discriminate.
Qed.

(** X13: what the body of the loop computes, when no rounding takes
    place, is a probability distribution: on every nonempty grid of
    energies and at every temperature other than 0 there is one
    probability for each energy, each lies in (0, 1], and they sum
    to 1.  (Exact real arithmetic; the rounding of float64 is outside
    this statement.) *)
Theorem boltzmann_is_distribution (es : list R) (T : R) :
  es <> [] -> T <> 0 ->
  length (boltzmann es T) = length es /\
  (forall p, In p (boltzmann es T) -> 0 < p <= 1) /\
  np.sum (boltzmann es T) = 1.
Proof.
  intros Hne _. split; [|split].
  - unfold boltzmann, weights. now rewrite !length_map.
  - intros p Hp. split; [now apply (boltzmann_pos es T)|].
    unfold boltzmann in Hp. apply in_map_iff in Hp as (w & <- & Hw).
    pose proof (weights_sum_pos es T Hne) as HZ.
    pose proof (sum_member _ w (weights_nonneg es T) Hw) as Hle.
    apply (Rmult_le_reg_r (np.sum (weights es T))); [exact HZ|].
    unfold Rdiv. rewrite Rmult_assoc, Rinv_l by lra. lra.
  - now apply boltzmann_sum_one.
Qed.

Lemma boltzmann_is_distribution_witness :
  length (boltzmann energies 5) = length energies /\
  (forall p, In p (boltzmann energies 5) -> 0 < p <= 1) /\
  np.sum (boltzmann energies 5) = 1.
Proof.
  apply boltzmann_is_distribution.
  - exact energies_nonempty.
  - lra.
Defined.

Lemma boltzmann_nth (es : list R) (T : R) (i : nat) :
  (i < length es)%nat ->
  nth i (boltzmann es T) 0
  = exp (- nth i es 0 / T) / np.sum (weights es T).
Proof.
  intros Hi. unfold boltzmann.
  rewrite (nth_indep _ 0 (0 / np.sum (weights es T)))
    by (unfold weights; now rewrite !length_map).
  rewrite (map_nth (fun p => p / np.sum (weights es T))).
  unfold weights at 1.
  rewrite (nth_indep _ 0 (exp (- 0 / T))) by now rewrite length_map.
  now rewrite (map_nth (fun E => exp (- E / T))).
Qed.

(** X14: at a positive temperature a higher energy is less probable: on
    any grid, if the energy at index [i] is below the energy at index
    [j], the probability at [j] is strictly below the probability at [i].
    On the grid of the notebook every curve therefore falls from left
    to right.  (Exact real arithmetic.) *)
Theorem boltzmann_decreasing (es : list R) (T : R) (i j : nat) :
  0 < T -> (i < length es)%nat -> (j < length es)%nat ->
  nth i es 0 < nth j es 0 ->
  nth j (boltzmann es T) 0 < nth i (boltzmann es T) 0.
Proof.
  intros HT Hi Hj HE. rewrite !boltzmann_nth by assumption.
  assert (Hne : es <> []) by (intros ->; cbn in Hi; lia).
  pose proof (weights_sum_pos es T Hne) as HZ.
  assert (Hi' : 0 < / T) by now apply Rinv_0_lt_compat.
  assert (Hz : 0 < / np.sum (weights es T)) by now apply Rinv_0_lt_compat.
  unfold Rdiv at 1 3. apply Rmult_lt_compat_r; [exact Hz|].
  apply exp_increasing. unfold Rdiv. nra.
Qed.

Lemma INR_99 : INR 99 = 99.
Proof. rewrite INR_IZR_INZ. reflexivity. Qed.

(** The grid: 100 energies from 0 to 20 in steps of 20/99. *)
Lemma energies_nth (i : nat) :
  (i < 100)%nat -> nth i energies 0 = 20 * INR i / 99.
Proof.
  intros Hi. unfold energies, linspace.
  set (f := fun i0 : nat => if Nat.eqb i0 (100 - 1) then 20
                            else INR i0 * ((20 - 0) / INR (100 - 1)) + 0).
  rewrite (nth_indep _ 0 (f 0%nat)) by now rewrite length_map, length_seq.
  rewrite (map_nth f), seq_nth by exact Hi. unfold f.
  change (100 - 1)%nat with 99%nat. rewrite INR_99.
  destruct (Nat.eqb_spec (0 + i) 99) as [E|_].
  - replace i with 99%nat by lia. rewrite INR_99. field.
  - cbn [Nat.add]. field.
Qed.

Lemma boltzmann_decreasing_witness :
  nth 99 (boltzmann energies (1 / 2)) 0
  < nth 0 (boltzmann energies (1 / 2)) 0.
Proof.
  apply boltzmann_decreasing.
  - lra.
  - rewrite energies_length. lia.
  - rewrite energies_length. lia.
  - rewrite !energies_nth by lia. rewrite INR_99. cbn [INR]. lra.
Defined.

Lemma boltzmann_uniform_limit_witness :
  exists M, 0 < M /\ forall T, M < T ->
    forall p, In p (boltzmann energies T) -> Rabs (p - 1 / 100) < 1 / 1000.
Proof. apply boltzmann_uniform_limit. lra. Defined.

Lemma fold_Rmax_le (t : list R) (a B : R) :
  a <= B -> (forall x, In x t -> x <= B) -> fold_left Rmax t a <= B.
Proof.
  revert a. induction t as [|x t IH]; intros a Ha Ht; [exact Ha|].
  cbn [fold_left]. apply IH.
  - apply Rmax_lub; [exact Ha|apply Ht; now left].
  - intros y Hy. apply Ht. now right.
Qed.

Lemma fold_Rmax_init (t : list R) (a : R) : a <= fold_left Rmax t a.
Proof.
  revert a. induction t as [|y t IH]; intros a; cbn [fold_left]; [lra|].
  eapply Rle_trans; [apply (Rmax_l a y)|apply IH].
Qed.

Lemma fold_Rmax_ge (t : list R) (a x : R) :
  In x t -> x <= fold_left Rmax t a.
Proof.
  revert a. induction t as [|y t IH]; intros a Hx; [contradiction|].
  cbn [fold_left]. destruct Hx as [E|Hx].
  - rewrite <- E. eapply Rle_trans; [apply (Rmax_r a y)|apply fold_Rmax_init].
  - now apply IH.
Qed.

Lemma amax_le (l : list R) (B : R) :
  0 <= B -> (forall x, In x l -> x <= B) -> amax l <= B.
Proof.
  unfold amax. intros HB Hl. destruct l as [|a l]; cbn [hd tl].
  - exact HB.
  - apply fold_Rmax_le; [apply Hl; now left|intros x Hx; apply Hl; now right].
Qed.

Lemma amax_ge (l : list R) (x : R) : In x l -> x <= amax l.
Proof.
  unfold amax. destruct l as [|a l]; [contradiction|]. cbn [hd tl].
  intros [E|Hx]; [rewrite <- E; apply fold_Rmax_init|now apply fold_Rmax_ge].
Qed.

Lemma exp_neg_bound (x : R) : 0 <= x -> exp (- x) <= / (1 + x).
Proof.
  intros Hx. rewrite exp_Ropp.
  apply Rinv_le_contravar; [lra|]. apply exp_ineq1_le.
Qed.

(** The sum of the weights of the first temperature is below 72. *)
Lemma low_temperature_sum :
  np.sum (weights energies (1 / 2)) <= 1 + 99 * (99 / 139).
Proof.
  unfold energies, linspace, weights.
  change (seq 0 100) with (0%nat :: seq 1 99). cbn [map]. rewrite sum_cons.
  apply Rplus_le_compat.
  - change (100 - 1)%nat with 99%nat. cbn [Nat.eqb]. rewrite INR_99.
    change (INR 0) with 0. right.
    replace (- (0 * ((20 - 0) / 99) + 0) / (1 / 2)) with 0 by field.
    apply exp_0.
  - match goal with
    | |- np.sum ?l <= _ =>
        pose proof (sum_bounds l 0 (99 / 139)) as Hb
    end.
    rewrite !length_map, length_seq in Hb. rewrite INR_99 in Hb.
    apply Hb. intros w Hw.
    apply in_map_iff in Hw as (E & <- & HE).
    apply in_map_iff in HE as (i & <- & Hi). apply in_seq in Hi.
    split; [left; apply exp_pos|].
    change (100 - 1)%nat with 99%nat. rewrite INR_99.
    assert (HI : 1 <= INR i).
    { change 1 with (INR 1). apply le_INR. lia. }
    assert (HE : 20 / 99 <= (if Nat.eqb i 99 then 20
                             else INR i * ((20 - 0) / 99) + 0)).
    { destruct (Nat.eqb i 99); lra. }
    set (E := if Nat.eqb i 99 then 20 else _) in *.
    replace (- E / (1 / 2)) with (- (2 * E)) by field.
    eapply Rle_trans; [apply exp_neg_bound; lra|].
    replace (99 / 139) with (/ (1 + 40 / 99)) by field.
    apply Rinv_le_contravar; lra.
Qed.

(** The sum of the weights of the last temperature is at least 99. *)
Lemma high_temperature_sum : 99 <= np.sum (weights energies 2000).
Proof.
  pose proof (sum_bounds (weights energies 2000) (99 / 100) 1) as Hb.
  assert (Hl : length (weights energies 2000) = 100%nat)
    by (unfold weights; rewrite length_map; apply energies_length).
  rewrite Hl in Hb.
  replace (INR 100) with 100 in Hb by (rewrite INR_IZR_INZ; reflexivity).
  assert (H : 100 * (99 / 100) <= np.sum (weights energies 2000)); [|lra].
  apply Hb. intros w Hw. unfold weights in Hw.
  apply in_map_iff in Hw as (E & <- & HE). apply energies_range in HE.
  split; [|apply (weight_range E 20 2000); lra].
  pose proof (exp_ineq1_le (- E / 2000)). lra.
Qed.

(** X15: the upper limit of the y axis is taken from the last curve only.
    [ax.set_ylim(0, 1.2*probabilities.max())] runs after the loop, when
    [probabilities] holds the distribution of the last temperature, 2000.
    That curve lies below the limit, but the curve of the first
    temperature, 0.5, starts above it (its first probability exceeds
    1.2 times the largest probability at 2000) and so lies outside the
    range of the axis.  (Exact real arithmetic.) *)
Theorem ylim_clips_first_curve :
  probabilities = boltzmann energies 2000 /\
  (forall p, In p probabilities -> p < snd ylim) /\
  snd ylim < nth 0 (nth 0 plotted []) 0.
Proof.
  assert (Hp : probabilities = boltzmann energies 2000) by reflexivity.
  assert (Htop : amax probabilities <= / 99).
  { rewrite Hp. apply amax_le.
    - left. apply Rinv_0_lt_compat. lra.
    - intros p Hin. unfold boltzmann in Hin.
      apply in_map_iff in Hin as (w & <- & Hw).
      pose proof high_temperature_sum as HZ.
      assert (Hw1 : 0 < w <= 1).
      { unfold weights in Hw. apply in_map_iff in Hw as (E & <- & HE).
        apply energies_range in HE.
        split; [apply exp_pos|apply (weight_range E 20 2000); lra]. }
      assert (/ np.sum (weights energies 2000) <= / 99)
        by (apply Rinv_le_contravar; lra).
      assert (0 < / np.sum (weights energies 2000))
        by (apply Rinv_0_lt_compat; lra).
      unfold Rdiv. nra. }
  split; [exact Hp|split].
  - intros p Hin. cbn [snd ylim].
    assert (Hpos : 0 < p)
      by (rewrite Hp in Hin; now apply boltzmann_pos in Hin).
    pose proof (amax_ge probabilities p Hin). lra.
  - cbn [snd ylim].
    change (nth 0 plotted []) with (boltzmann energies (1 / 2)).
    rewrite boltzmann_nth by (rewrite energies_length; lia).
    rewrite energies_nth by lia. cbn [INR].
    replace (- (20 * 0 / 99) / (1 / 2)) with 0 by field. rewrite exp_0.
    pose proof low_temperature_sum as HZ.
    pose proof (weights_sum_pos energies (1 / 2) energies_nonempty) as HZ0.
    assert (/ (1 + 99 * (99 / 139)) <= / np.sum (weights energies (1 / 2)))
      by (apply Rinv_le_contravar; lra).
    assert (1.2 * / 99 < / (1 + 99 * (99 / 139))).
    { replace (/ (1 + 99 * (99 / 139))) with (139 / 9940) by field. lra. }
    unfold Rdiv. lra.
Qed.
End BoltzmannCurves.
